(** * float8_experimental: the float8 tensor subclass and the float8 linear layer

    A shallow embedding of [float8_experimental/float8_tensor.py] and
    [float8_experimental/float8_linear.py], followed by the properties
    established about them.

    Conventions of the embedding.
    - A Python exception is a value of [exn]; a call that may raise returns a
      [result].  Code that mutates objects is written in the state and error
      monad [M S], where the mutations made before an exception are kept,
      as in Python.
    - Every tensor class of the source ([torch.Tensor], [Float8Tensor],
      [DTensor], [AsyncCollectiveTensor]) is a constructor of [Tensor], so an
      [isinstance] test of the source is a pattern match.
    - Element values are kept abstract ([scalar]): the float arithmetic of
      torch and the helpers of [float8_utils] and [float8_dynamic_utils],
      which the two files import, are the fields of the class [Torch]. *)

From stdpp Require Import gmap strings list fin_maps pretty.

Set Default Proof Using "Type".
Open Scope string_scope.

(** ** Exceptions and results *)

Inductive exn : Type :=
| AssertionError (msg : string)
| AttributeError (attr : string)
| KeyError (key : string)
| IndexError (msg : string)
| NotImplementedError (msg : string)
| RuntimeError (msg : string).

Inductive result (A : Type) : Type :=
| Ok (a : A)
| Raise (e : exn).
Arguments Ok {A} a.
Arguments Raise {A} e.

Definition is_ok {A} (r : result A) : bool :=
  match r with Ok _ => true | Raise _ => false end.

(** A computation over a mutable state [S]: the final state is returned
    also when an exception is raised. *)
Definition M (S A : Type) : Type := S -> S * result A.

Definition ret {S A} (a : A) : M S A := fun s => (s, Ok a).
Definition raise {S A} (e : exn) : M S A := fun s => (s, Raise e).
Definition bind {S A B} (m : M S A) (k : A -> M S B) : M S B :=
  fun s => match m s with
           | (s', Ok a) => k a s'
           | (s', Raise e) => (s', Raise e)
           end.
Definition get {S} : M S S := fun s => (s, Ok s).
Definition modify {S} (f : S -> S) : M S unit := fun s => (f s, Ok tt).
Definition lift_result {S A} (r : result A) : M S A := fun s => (s, r).

Declare Scope py_scope.
Delimit Scope py_scope with py.
Notation "x <- m ;; k" := (bind m (fun x => k))
  (at level 100, m at next level, right associativity) : py_scope.
Notation "m ;;; k" := (bind m (fun _ => k))
  (at level 100, right associativity) : py_scope.

(** A keyword argument with a default value: omitted, or passed. *)
Inductive kwarg (A : Type) : Type :=
| Omitted
| Passed (a : A).
Arguments Omitted {A}.
Arguments Passed {A} a.

Definition kwarg_get {A} (default : A) (k : kwarg A) : A :=
  match k with Omitted => default | Passed a => a end.

(** ** float8_tensor.py: configuration records *)

(** [ScaledMMConfig = namedtuple(..., defaults=[False, False, False, False])] *)
Record ScaledMMConfig : Type := mkScaledMMConfig {
  emulate : bool;
  use_fast_accum : bool;
  fp8_output : bool;
  pad_inner_dim : bool;
}.

Definition ScaledMMConfig_default : ScaledMMConfig :=
  mkScaledMMConfig false false false false.

(** [LinearMMConfig = namedtuple(..., defaults=[...])] *)
Record LinearMMConfig : Type := mkLinearMMConfig {
  output : ScaledMMConfig;
  grad_input : ScaledMMConfig;
  grad_weight : ScaledMMConfig;
}.

Definition LinearMMConfig_default : LinearMMConfig :=
  mkLinearMMConfig
    (mkScaledMMConfig false true false false)
    (mkScaledMMConfig false false false false)
    (mkScaledMMConfig false false false false).

#[global] Instance ScaledMMConfig_eq_dec : EqDecision ScaledMMConfig.
Proof. solve_decision. Defined.
#[global] Instance LinearMMConfig_eq_dec : EqDecision LinearMMConfig.
Proof. solve_decision. Defined.

(** [class GemmInputRole(enum.Enum)] *)
Inductive GemmInputRole : Type :=
| INPUT
| WEIGHT
| GRAD_OUTPUT.

#[global] Instance GemmInputRole_eq_dec : EqDecision GemmInputRole.
Proof. solve_decision. Defined.

(** The members of the enumeration, by name: the attribute access
    [GemmInputRole.NAME] of Python, which raises [AttributeError] for a
    name the class does not define. *)
Definition GemmInputRole_members : list (string * GemmInputRole) :=
  [("INPUT", INPUT); ("WEIGHT", WEIGHT); ("GRAD_OUTPUT", GRAD_OUTPUT)].

Definition GemmInputRole_getattr (name : string) : result GemmInputRole :=
  match list_find (fun p => bool_decide (p.1 = name)) GemmInputRole_members with
  | Some (_, (_, r)) => Ok r
  | None => Raise (AttributeError name)
  end.

(** [a_role is GemmInputRole.X], for an operand whose role may be [None]. *)
Definition role_is (r : option GemmInputRole) (x : GemmInputRole) : bool :=
  bool_decide (r = Some x).

(** Formatting as the f-strings of the source print these values. *)
Definition repr_bool (b : bool) : string := if b then "True" else "False".

Definition repr_ScaledMMConfig (c : ScaledMMConfig) : string :=
  "ScaledMMConfig(emulate=" +:+ repr_bool (emulate c)
  +:+ ", use_fast_accum=" +:+ repr_bool (use_fast_accum c)
  +:+ ", fp8_output=" +:+ repr_bool (fp8_output c)
  +:+ ", pad_inner_dim=" +:+ repr_bool (pad_inner_dim c) +:+ ")".

Definition str_GemmInputRole (r : option GemmInputRole) : string :=
  match r with
  | None => "None"
  | Some INPUT => "GemmInputRole.INPUT"
  | Some WEIGHT => "GemmInputRole.WEIGHT"
  | Some GRAD_OUTPUT => "GemmInputRole.GRAD_OUTPUT"
  end.

Definition mismatch_msg (field : string) (a b : ScaledMMConfig) : string :=
  "linear_mm_config." +:+ field +:+ " mismatch: "
  +:+ repr_ScaledMMConfig a +:+ " vs " +:+ repr_ScaledMMConfig b.

Definition unexpected_roles_msg (a_role b_role : option GemmInputRole) : string :=
  "unexpected a_role " +:+ str_GemmInputRole a_role
  +:+ " and b_role " +:+ str_GemmInputRole b_role.

(** [choose_scaled_mm_config]: which scaled_mm config to use, from the roles
    of the two gemm inputs. *)
Definition choose_scaled_mm_config
    (a_role : option GemmInputRole) (a_linear_mm_config : LinearMMConfig)
    (b_role : option GemmInputRole) (b_linear_mm_config : LinearMMConfig)
  : result ScaledMMConfig :=
  if role_is a_role INPUT && role_is b_role WEIGHT then
    if bool_decide (output a_linear_mm_config = output b_linear_mm_config)
    then Ok (output a_linear_mm_config)
    else Raise (AssertionError
                  (mismatch_msg "output" (output a_linear_mm_config)
                     (output b_linear_mm_config)))
  else if role_is a_role GRAD_OUTPUT && role_is b_role WEIGHT then
    if bool_decide (grad_input a_linear_mm_config = grad_input b_linear_mm_config)
    then Ok (grad_input a_linear_mm_config)
    else Raise (AssertionError
                  (mismatch_msg "grad_input" (grad_input a_linear_mm_config)
                     (grad_input b_linear_mm_config)))
  else if role_is a_role GRAD_OUTPUT && role_is b_role INPUT then
    if bool_decide (grad_weight a_linear_mm_config = grad_weight b_linear_mm_config)
    then Ok (grad_weight a_linear_mm_config)
    else Raise (AssertionError
                  (mismatch_msg "grad_weight" (grad_weight a_linear_mm_config)
                     (grad_weight b_linear_mm_config)))
  else Raise (AssertionError (unexpected_roles_msg a_role b_role)).

(** ** Tensors *)

Inductive Dtype : Type :=
| float64 | float32 | float16 | bfloat16
| float8_e4m3fn | float8_e4m3fnuz | float8_e5m2 | float8_e5m2fnuz.

#[global] Instance Dtype_eq_dec : EqDecision Dtype.
Proof. solve_decision. Defined.

Inductive Placement : Type :=
| Shard (dim : nat)
| Replicate
| Partial.

Definition DeviceMesh : Type := list nat.

(** The tensor classes the two files handle.  [Dense] is a plain
    [torch.Tensor] with its elements in row-major order; [Float8] is the
    wrapper subclass of this repository; [DTensor] wraps the local shard and
    carries the global size and stride. *)
Inductive Tensor (A : Type) : Type :=
| Dense (dtype : Dtype) (size stride : list nat) (elems : list A)
| Float8 (f : Float8Tensor A)
| DTensor (local : Tensor A) (device_mesh : DeviceMesh)
    (placements : list Placement) (size stride : list nat)
| AsyncCollectiveTensor (elem : Tensor A)
with Float8Tensor (A : Type) : Type :=
| mkFloat8Tensor (_data : Tensor A) (_scale : Tensor A) (_orig_dtype : Dtype)
    (_linear_mm_config : LinearMMConfig)
    (_gemm_input_role : option GemmInputRole).
Arguments Dense {A} dtype size stride elems.
Arguments Float8 {A} f.
Arguments DTensor {A} local device_mesh placements size stride.
Arguments AsyncCollectiveTensor {A} elem.
Arguments mkFloat8Tensor {A} _data _scale _orig_dtype _linear_mm_config
  _gemm_input_role.

Section TensorStructure.
Context {A : Type}.

Definition _data (f : Float8Tensor A) : Tensor A :=
  let '(mkFloat8Tensor d _ _ _ _) := f in d.
Definition _scale (f : Float8Tensor A) : Tensor A :=
  let '(mkFloat8Tensor _ s _ _ _) := f in s.
Definition _orig_dtype (f : Float8Tensor A) : Dtype :=
  let '(mkFloat8Tensor _ _ d _ _) := f in d.
Definition _linear_mm_config (f : Float8Tensor A) : LinearMMConfig :=
  let '(mkFloat8Tensor _ _ _ c _) := f in c.
Definition _gemm_input_role (f : Float8Tensor A) : option GemmInputRole :=
  let '(mkFloat8Tensor _ _ _ _ r) := f in r.

(** [t.size()]: a [Float8Tensor] is made by [_make_wrapper_subclass] with
    the size and strides of its data. *)
Fixpoint tensor_size (t : Tensor A) : list nat :=
  match t with
  | Dense _ sz _ _ => sz
  | Float8 f => tensor_size (_data f)
  | DTensor _ _ _ sz _ => sz
  | AsyncCollectiveTensor e => tensor_size e
  end.

Fixpoint tensor_stride (t : Tensor A) : list nat :=
  match t with
  | Dense _ _ st _ => st
  | Float8 f => tensor_stride (_data f)
  | DTensor _ _ _ _ st => st
  | AsyncCollectiveTensor e => tensor_stride e
  end.

(** [t.dtype]: the wrapper subclass is made with [dtype=orig_dtype]. *)
Fixpoint tensor_dtype (t : Tensor A) : Dtype :=
  match t with
  | Dense dt _ _ _ => dt
  | Float8 f => _orig_dtype f
  | DTensor l _ _ _ _ => tensor_dtype l
  | AsyncCollectiveTensor e => tensor_dtype e
  end.

(** [t.numel()] *)
Definition numel (t : Tensor A) : nat := foldr Nat.mul 1 (tensor_size t).

Definition is_DTensor (t : Tensor A) : bool :=
  match t with DTensor _ _ _ _ _ => true | _ => false end.

Definition is_Float8Tensor (t : Tensor A) : bool :=
  match t with Float8 _ => true | _ => false end.

(** [tensor_already_casted_to_fp8] *)
Fixpoint tensor_already_casted_to_fp8 (tensor : Tensor A) : bool :=
  match tensor with
  | Float8 _ => true
  | DTensor local _ _ _ _ => tensor_already_casted_to_fp8 local
  | AsyncCollectiveTensor elem => tensor_already_casted_to_fp8 elem
  | Dense _ _ _ _ => false
  end.

(** The [Float8Tensor] a cast returns, directly or as the local tensor of
    the [DTensor] it returns. *)
Definition float8_of (t : Tensor A) : option (Float8Tensor A) :=
  match t with
  | Float8 f => Some f
  | DTensor (Float8 f) _ _ _ _ => Some f
  | _ => None
  end.

(** What [isinstance(t, DTensor)] followed by [t.to_local()] yields, and
    the tensor itself otherwise. *)
Definition local_of (t : Tensor A) : Tensor A :=
  match t with DTensor l _ _ _ _ => l | _ => t end.

(** In-place operations on the buffers.  [fill_] and [copy_] of a 0-dim
    value write it to every element; [t[0] = v] writes the first slice
    along dimension 0 and raises [IndexError] when there is none. *)
Definition fill_ (t : Tensor A) (v : A) : Tensor A :=
  match t with
  | Dense dt sz st el => Dense dt sz st (replicate (length el) v)
  | _ => t
  end.

Definition copy_ (t : Tensor A) (v : A) : Tensor A := fill_ t v.

Definition setitem0 (t : Tensor A) (v : A) : result (Tensor A) :=
  match t with
  | Dense dt sz st el =>
      match sz with
      | [] => Raise (IndexError "invalid index of a 0-dim tensor")
      | 0 :: _ =>
          Raise (IndexError
                   "index 0 is out of bounds for dimension 0 with size 0")
      | S _ :: rest =>
          let row := foldr Nat.mul 1 rest in
          Ok (Dense dt sz st
                (replicate (row `min` length el) v ++ drop row el))
      end
  | _ => Raise (NotImplementedError "item assignment on a tensor subclass")
  end.
End TensorStructure.

(** ** The collaborators outside the two files

    [torch] arithmetic, and the helpers imported from [float8_utils] and
    [float8_dynamic_utils].  The amax and the scale they return are 0-dim
    tensors, represented by their element. *)
Class Torch : Type := {
  scalar : Type;
  (** the float literals [1.0] and [0.0], and [torch.finfo(dtype).max] *)
  fp_one : scalar;
  fp_zero : scalar;
  finfo_max : Dtype -> scalar;
  (** [a * b], [a / b], [a + b], [t.to(dtype)] *)
  torch_mul : Tensor scalar -> Tensor scalar -> Tensor scalar;
  torch_div : Tensor scalar -> Tensor scalar -> Tensor scalar;
  torch_add : Tensor scalar -> Tensor scalar -> Tensor scalar;
  tensor_to : Tensor scalar -> Dtype -> Tensor scalar;
  (** [torch.matmul(a, b)] and [t.t()], which a [Float8Tensor] operand sends
      through the operator table of [float8_ops] *)
  torch_matmul : Tensor scalar -> Tensor scalar -> result (Tensor scalar);
  tensor_t : Tensor scalar -> result (Tensor scalar);
  (** [float8_utils] *)
  e4m3_dtype : Dtype;
  e5m2_dtype : Dtype;
  tensor_to_amax : Tensor scalar -> kwarg bool -> scalar;
  to_fp8_saturated : Tensor scalar -> Dtype -> Tensor scalar;
  amax_history_to_scale :
    Tensor scalar -> Dtype -> Dtype -> string -> result scalar;
  (** [float8_dynamic_utils] *)
  cast_to_float8_e4m3_dynamic :
    Tensor scalar -> LinearMMConfig -> kwarg GemmInputRole -> Tensor scalar;
  cast_to_float8_e5m2_dynamic_bw :
    Tensor scalar -> LinearMMConfig -> Tensor scalar;
}.

Abbreviation tensor := (Tensor scalar).
Abbreviation float8tensor := (Float8Tensor scalar).

Section Float8TensorPy.
Context {T : Torch}.

Definition scale_numel_msg (n : nat) : string :=
  "Scale should contain a single value, but got: " +:+ pretty n
  +:+ " elements".

(** [Float8Tensor.__new__] *)
Definition Float8Tensor_new (data scale : tensor) (orig_dtype : Dtype)
    (linear_mm_config : option LinearMMConfig)
    (gemm_input_role : kwarg (option GemmInputRole))
  : result float8tensor :=
  if bool_decide (numel scale = 1) then
    Ok (mkFloat8Tensor data scale orig_dtype
          (match linear_mm_config with
           | Some c => c
           | None => LinearMMConfig_default
           end)
          (kwarg_get (Some INPUT) gemm_input_role))
  else Raise (AssertionError (scale_numel_msg (numel scale))).

(** [_ToFloat8ConstrFunc.forward] *)
Definition ToFloat8ConstrFunc_forward (t scale : tensor)
    (float8_dtype : kwarg Dtype)
    (linear_mm_config : kwarg (option LinearMMConfig))
    (gemm_input_role : kwarg (option GemmInputRole))
  : result tensor :=
  let float8_dtype := kwarg_get e4m3_dtype float8_dtype in
  let linear_mm_config := kwarg_get None linear_mm_config in
  let gemm_input_role := kwarg_get (Some INPUT) gemm_input_role in
  let tensor_scaled := torch_mul t scale in
  let bits_fp8 := to_fp8_saturated tensor_scaled float8_dtype in
  match bits_fp8 with
  | DTensor local_bits bits_mesh bits_placements _ _ =>
      match scale with
      | DTensor local_scale _ _ _ _ =>
          match Float8Tensor_new local_bits local_scale (tensor_dtype t)
                  linear_mm_config (Passed gemm_input_role) with
          | Ok inner_float8_tensor =>
              Ok (DTensor (Float8 inner_float8_tensor) bits_mesh
                    bits_placements (tensor_size bits_fp8)
                    (tensor_stride bits_fp8))
          | Raise e => Raise e
          end
      | _ =>
          Raise (AssertionError
            "Expected Float8 scale to be a DTensor if bits_fp8 is a DTensor")
      end
  | _ =>
      match Float8Tensor_new bits_fp8 scale (tensor_dtype t)
              linear_mm_config (Passed gemm_input_role) with
      | Ok f => Ok (Float8 f)
      | Raise e => Raise e
      end
  end.

(** [_ToFloat8ConstrFunc.backward]: one entry per returned gradient,
    [None] for "no gradient". *)
Definition ToFloat8ConstrFunc_backward (g : tensor) : list (option tensor) :=
  [Some g; None; None; None; None; None].

(** [_FromFloat8ConstrFunc.forward] and [backward] *)
Definition FromFloat8ConstrFunc_forward (t : float8tensor) : tensor :=
  torch_div (tensor_to (_data t) (_orig_dtype t))
            (tensor_to (_scale t) (_orig_dtype t)).

Definition FromFloat8ConstrFunc_backward (g : tensor) : list (option tensor) :=
  [Some g; None; None].

(** [hp_tensor_and_scale_to_float8] *)
Definition hp_tensor_and_scale_to_float8 (hp_tensor s : tensor)
    (float8_dtype : kwarg Dtype)
    (linear_mm_config : kwarg (option LinearMMConfig))
    (gemm_input_role : kwarg (option GemmInputRole))
  : result tensor :=
  ToFloat8ConstrFunc_forward hp_tensor s
    (Passed (kwarg_get e4m3_dtype float8_dtype))
    (Passed (kwarg_get None linear_mm_config))
    (Passed (kwarg_get (Some INPUT) gemm_input_role)).

(** [Float8Tensor.to_original_precision] *)
Definition to_original_precision (self : float8tensor) : tensor :=
  FromFloat8ConstrFunc_forward self.

(** [__tensor_flatten__] and [__tensor_unflatten__]: the metadata
    dictionary has the three keys the source writes. *)
Record Float8Metadata : Type := mkFloat8Metadata {
  meta_orig_dtype : Dtype;
  meta_linear_mm_config : option LinearMMConfig;
  meta_gemm_input_role : option GemmInputRole;
}.

Definition tensor_flatten (self : float8tensor)
  : list string * Float8Metadata :=
  (["_data"; "_scale"],
   mkFloat8Metadata (_orig_dtype self) (Some (_linear_mm_config self))
     (_gemm_input_role self)).

Definition tensor_unflatten (inner_tensors : gmap string tensor)
    (metadata : Float8Metadata) : result float8tensor :=
  if bool_decide (size inner_tensors = 2) then
    match inner_tensors !! "_data" with
    | None => Raise (KeyError "_data")
    | Some d =>
        match inner_tensors !! "_scale" with
        | None => Raise (KeyError "_scale")
        | Some s =>
            Float8Tensor_new d s (meta_orig_dtype metadata)
              (meta_linear_mm_config metadata)
              (Passed (meta_gemm_input_role metadata))
        end
    end
  else Raise (AssertionError "").
End Float8TensorPy.

(** ** float8_experimental.config *)

Module Config.

(** Modelled from the spec: [TensorScalingType] of
    [float8_experimental.config] is not among the sources; it is the spec's
    ScalingTypeConfig, "per role, one of {DYNAMIC, DELAYED}". *)
Inductive TensorScalingType : Type :=
| DYNAMIC
| DELAYED.

(** Modelled from the spec: the configuration records of
    [float8_experimental.config] are not among the sources; each has the
    fields that [float8_linear] reads from it. *)
Record CastConfig : Type := mkCastConfig {
  scaling_type : TensorScalingType;
}.

(** Modelled from the spec: see [CastConfig]. *)
Record Float8GemmConfig : Type := mkFloat8GemmConfig {
  use_fast_accum : bool;
}.

(** Modelled from the spec: see [CastConfig]. *)
Record DelayedScalingConfig : Type := mkDelayedScalingConfig {
  history_len : nat;
  scale_fn_name : string;
}.

(** Modelled from the spec: see [CastConfig]. *)
Record Float8LinearConfig : Type := mkFloat8LinearConfig {
  cast_config_input : CastConfig;
  cast_config_weight : CastConfig;
  cast_config_grad_output : CastConfig;
  gemm_config_output : Float8GemmConfig;
  gemm_config_grad_input : Float8GemmConfig;
  gemm_config_grad_weight : Float8GemmConfig;
  enable_fsdp_float8_all_gather : bool;
  pad_inner_dim : bool;
  emulate : bool;
  enable_amax_init : bool;
  enable_pre_and_post_forward : bool;
  delayed_scaling_config : DelayedScalingConfig;
}.

#[global] Instance TensorScalingType_eq_dec : EqDecision TensorScalingType.
Proof. solve_decision. Defined.

End Config.

(** ** The buffers of a module

    The buffers are objects that the layer and the backward context of
    [NoopFwToFloat8E5M2Bw] share and update in place.  The store is the
    [_buffers] dictionary of [torch.nn.Module]; a reference to a buffer is
    the name under which it is registered, and an in-place operation on the
    object updates the store at that name, so every holder of the reference
    sees the write. *)

Definition ref : Type := string.

(** [torch.is_grad_enabled()], [torch.is_autocast_enabled()] and
    [torch.get_autocast_gpu_dtype()]: the global state of torch that
    [float8_linear] reads. *)
Record TorchGlobals : Type := mkTorchGlobals {
  is_grad_enabled : bool;
  is_autocast_enabled : bool;
  get_autocast_gpu_dtype : Dtype;
}.

(** [to_fp8_no_autograd] and [Float8Tensor.to_float8]: [float8_linear]
    imports the first from [float8_tensor] and calls the second on
    [Float8Tensor], and [float8_tensor.py] defines neither.  They are
    parameters; the scale and the amax buffer they receive are references. *)
Class Float8TensorCasts {T : Torch} : Type := {
  to_fp8_no_autograd :
    tensor -> ref -> Dtype -> LinearMMConfig -> GemmInputRole ->
    M (gmap string tensor) tensor;
  Float8Tensor_to_float8 :
    tensor -> ref -> Dtype -> ref -> LinearMMConfig -> GemmInputRole ->
    M (gmap string tensor) tensor;
}.

Section Buffers.
Context {T : Torch}.
Local Open Scope py_scope.

(** The object behind a reference. *)
Definition buf_get (r : ref) : M (gmap string tensor) tensor :=
  fun bufs =>
    match bufs !! r with
    | Some t => (bufs, Ok t)
    | None => (bufs, Raise (AttributeError r))
    end.

(** [buf.fill_(v)], [buf[0] = v] and [buf.copy_(v)] *)
Definition buf_fill_ (r : ref) (v : scalar) : M (gmap string tensor) unit :=
  t <- buf_get r ;;
  modify (<[r := fill_ t v]>).

Definition buf_setitem0 (r : ref) (v : scalar) : M (gmap string tensor) unit :=
  t <- buf_get r ;;
  t' <- lift_result (setitem0 t v) ;;
  modify (<[r := t']>).

Definition buf_copy_ (r : ref) (v : scalar) : M (gmap string tensor) unit :=
  t <- buf_get r ;;
  modify (<[r := copy_ t v]>).

(** ** float8_linear.py *)

(** [_maybe_initialize_amaxes_scales_for_float8_cast] *)
Definition _maybe_initialize_amaxes_scales_for_float8_cast
    (x : tensor) (cur_amax amax_history scale : ref) (scale_fn_name : string)
    (float8_dtype : Dtype) (is_initialized : bool) (reduce_amax : bool)
  : M (gmap string tensor) unit :=
  if is_initialized then ret tt
  else
    let new_amax := tensor_to_amax x (Passed reduce_amax) in
    buf_fill_ cur_amax new_amax ;;;
    buf_setitem0 amax_history new_amax ;;;
    history <- buf_get amax_history ;;
    new_scale <- lift_result
      (amax_history_to_scale history float8_dtype (tensor_dtype x)
         scale_fn_name) ;;
    buf_copy_ scale new_scale.

End Buffers.

(** [class NoopFwToFloat8E5M2Bw(torch.autograd.Function)] *)
Module NoopFwToFloat8E5M2Bw.
Section WithTorch.
Context {T : Torch} {C : Float8TensorCasts}.
Local Open Scope py_scope.

(** What [forward] leaves in [ctx]. *)
Record ctx : Type := mkCtx {
  saved_tensors : ref * ref * ref;
  scale_fn_name : string;
  is_amax_initialized : bool;
  linear_mm_config : LinearMMConfig;
}.

Definition forward (t : tensor)
    (fp8_amax_grad_output fp8_amax_history_grad_output
       fp8_scale_grad_output : ref)
    (scale_fn_name : string) (is_amax_initialized : bool)
    (linear_mm_config : LinearMMConfig) : tensor * ctx :=
  (t,
   mkCtx (fp8_amax_grad_output, fp8_amax_history_grad_output,
          fp8_scale_grad_output)
     scale_fn_name is_amax_initialized linear_mm_config).

Definition backward (c : ctx) (go : tensor)
  : M (gmap string tensor) (list (option tensor)) :=
  let '(fp8_amax_grad_output, fp8_amax_history_grad_output,
        fp8_scale_grad_output) := saved_tensors c in
  let scale_fn_name := scale_fn_name c in
  let is_amax_initialized := is_amax_initialized c in
  _maybe_initialize_amaxes_scales_for_float8_cast go
    fp8_amax_grad_output fp8_amax_history_grad_output fp8_scale_grad_output
    scale_fn_name e5m2_dtype is_amax_initialized true ;;;
  buf_fill_ fp8_amax_grad_output (tensor_to_amax go Omitted) ;;;
  DL_DY <- lift_result (GemmInputRole_getattr "DL_DY") ;;
  res <- to_fp8_no_autograd go fp8_scale_grad_output e5m2_dtype
           (linear_mm_config c) DL_DY ;;
  ret [Some res; None; None; None; None; None; None].

End WithTorch.
End NoopFwToFloat8E5M2Bw.

(** A [for] loop over a list, in the state and error monad. *)
Fixpoint for_each {S A : Type} (l : list A) (body : A -> M S unit)
  : M S unit :=
  match l with
  | [] => ret tt
  | a :: l' => bind (body a) (fun _ => for_each l' body)
  end.

(** [torch.nn.Linear], as far as [from_float] reads it. *)
Module nn.
Record Linear {T : Torch} : Type := mkLinear {
  weight : tensor;
  bias : option tensor;
}.
End nn.

(** What [from_float] takes from [float8_experimental.config] and
    [float8_experimental.fsdp_utils]: the configuration that
    [Float8LinearConfig()] makes, and the two weight wrappers, which receive
    the buffers as references. *)
Class Float8LinearImports {T : Torch} : Type := {
  Float8LinearConfig_default : Config.Float8LinearConfig;
  WeightWithDynamicFloat8CastTensor : tensor -> LinearMMConfig -> tensor;
  WeightWithDelayedFloat8CastTensor :
    tensor -> ref -> ref -> ref -> LinearMMConfig -> bool -> tensor;
}.

(** [class Float8Linear(torch.nn.Linear)] *)
Module Float8Linear.
Section WithTorch.
Context {T : Torch} {C : Float8TensorCasts}.
Local Open Scope py_scope.

(** The attributes of a layer. *)
Record t : Type := mk {
  weight : tensor;
  bias : option tensor;
  always_float32_buffers : gset string;
  scaling_type_input : Config.TensorScalingType;
  scaling_type_weight : Config.TensorScalingType;
  scaling_type_grad_output : Config.TensorScalingType;
  has_any_delayed_scaling : bool;
  config : Config.Float8LinearConfig;
  _buffers : gmap string tensor;
  linear_mm_config : LinearMMConfig;
  is_amax_initialized : bool;
  amax_and_scale_synced : bool;
  last_seen_input_dtype : option Dtype;
  enable_pre_and_post_forward : bool;
}.

Definition set_buffers (b : gmap string tensor) (self : t) : t :=
  mk (weight self) (bias self) (always_float32_buffers self)
     (scaling_type_input self) (scaling_type_weight self)
     (scaling_type_grad_output self) (has_any_delayed_scaling self)
     (config self) b (linear_mm_config self) (is_amax_initialized self)
     (amax_and_scale_synced self) (last_seen_input_dtype self)
     (enable_pre_and_post_forward self).

Definition set_always_float32_buffers (a : gset string) (self : t) : t :=
  mk (weight self) (bias self) a
     (scaling_type_input self) (scaling_type_weight self)
     (scaling_type_grad_output self) (has_any_delayed_scaling self)
     (config self) (_buffers self) (linear_mm_config self)
     (is_amax_initialized self) (amax_and_scale_synced self)
     (last_seen_input_dtype self) (enable_pre_and_post_forward self).

Definition set_is_amax_initialized (b : bool) (self : t) : t :=
  mk (weight self) (bias self) (always_float32_buffers self)
     (scaling_type_input self) (scaling_type_weight self)
     (scaling_type_grad_output self) (has_any_delayed_scaling self)
     (config self) (_buffers self) (linear_mm_config self) b
     (amax_and_scale_synced self) (last_seen_input_dtype self)
     (enable_pre_and_post_forward self).

Definition set_amax_and_scale_synced (b : bool) (self : t) : t :=
  mk (weight self) (bias self) (always_float32_buffers self)
     (scaling_type_input self) (scaling_type_weight self)
     (scaling_type_grad_output self) (has_any_delayed_scaling self)
     (config self) (_buffers self) (linear_mm_config self)
     (is_amax_initialized self) b (last_seen_input_dtype self)
     (enable_pre_and_post_forward self).

Definition set_last_seen_input_dtype (d : option Dtype) (self : t) : t :=
  mk (weight self) (bias self) (always_float32_buffers self)
     (scaling_type_input self) (scaling_type_weight self)
     (scaling_type_grad_output self) (has_any_delayed_scaling self)
     (config self) (_buffers self) (linear_mm_config self)
     (is_amax_initialized self) (amax_and_scale_synced self) d
     (enable_pre_and_post_forward self).

(** A computation on the buffers, run on the buffers of the layer. *)
Definition on_buffers {A} (m : M (gmap string tensor) A) : M t A :=
  fun self =>
    let '(b, r) := m (_buffers self) in (set_buffers b self, r).

(** [self.NAME] for a buffer: [torch.nn.Module.__getattr__] finds it in
    [_buffers] and raises [AttributeError] otherwise. *)
Definition getattr_buffer (name : string) : M t ref :=
  fun self =>
    match _buffers self !! name with
    | Some _ => (self, Ok name)
    | None => (self, Raise (AttributeError name))
    end.

(** [torch.tensor([v])] and [torch.zeros(n)], of the default dtype. *)
Definition torch_tensor1 (v : scalar) : tensor := Dense float32 [1] [1] [v].
Definition torch_zeros (n : nat) : tensor :=
  Dense float32 [n] [1] (replicate n fp_zero).

(** [register_always_float32_buffer] *)
Definition register_always_float32_buffer (name : string) (b : tensor)
  : M t unit :=
  modify (fun self => set_buffers (<[name := b]> (_buffers self)) self) ;;;
  modify (fun self =>
            set_always_float32_buffers
              ({[name]} ∪ always_float32_buffers self) self).

(** [create_buffers] *)
Definition create_buffers : M t unit :=
  self <- get ;;
  let history_len :=
    Config.history_len (Config.delayed_scaling_config (config self)) in
  let default_input := finfo_max float8_e4m3fn in
  let default_weight := finfo_max float8_e4m3fn in
  let default_grad_output := finfo_max float8_e5m2 in
  if has_any_delayed_scaling self then
    register_always_float32_buffer "fp8_amax_input"
      (torch_tensor1 default_input) ;;;
    register_always_float32_buffer "fp8_amax_history_input"
      (torch_zeros history_len) ;;;
    register_always_float32_buffer "fp8_scale_input"
      (torch_tensor1 fp_one) ;;;
    register_always_float32_buffer "fp8_amax_weight"
      (torch_tensor1 default_weight) ;;;
    register_always_float32_buffer "fp8_amax_history_weight"
      (torch_zeros history_len) ;;;
    register_always_float32_buffer "fp8_scale_weight"
      (torch_tensor1 fp_one) ;;;
    register_always_float32_buffer "fp8_amax_grad_output"
      (torch_tensor1 default_grad_output) ;;;
    register_always_float32_buffer "fp8_amax_history_grad_output"
      (torch_zeros history_len) ;;;
    register_always_float32_buffer "fp8_scale_grad_output"
      (torch_tensor1 fp_one)
  else ret tt.

(** [__init__]: [weight] and [bias] are the parameters that
    [torch.nn.Linear.__init__] has made. *)
Definition init (weight : tensor) (bias : option tensor)
    (config : Config.Float8LinearConfig) : t :=
  let emulate := Config.emulate config in
  let scaling_type_input :=
    Config.scaling_type (Config.cast_config_input config) in
  let scaling_type_weight :=
    Config.scaling_type (Config.cast_config_weight config) in
  let scaling_type_grad_output :=
    Config.scaling_type (Config.cast_config_grad_output config) in
  let has_any_delayed_scaling :=
    bool_decide (scaling_type_input = Config.DELAYED)
    || bool_decide (scaling_type_weight = Config.DELAYED)
    || bool_decide (scaling_type_grad_output = Config.DELAYED) in
  let linear_mm_config :=
    mkLinearMMConfig
      (mkScaledMMConfig emulate
         (Config.use_fast_accum (Config.gemm_config_output config))
         false (Config.pad_inner_dim config))
      (mkScaledMMConfig emulate
         (Config.use_fast_accum (Config.gemm_config_grad_input config))
         false (Config.pad_inner_dim config))
      (mkScaledMMConfig emulate
         (Config.use_fast_accum (Config.gemm_config_grad_weight config))
         false (Config.pad_inner_dim config)) in
  let self :=
    mk weight bias ∅ scaling_type_input scaling_type_weight
       scaling_type_grad_output has_any_delayed_scaling config ∅
       linear_mm_config
       (negb (Config.enable_amax_init config))
       (negb (Config.enable_amax_init config))
       None
       (Config.enable_pre_and_post_forward config) in
  (create_buffers self).1.

(** [cast_x_to_float8] *)
Definition cast_x_to_float8 (env : TorchGlobals) (x : tensor)
    (is_amax_initialized : bool) : M t tensor :=
  let x :=
    if is_autocast_enabled env
    then tensor_to x (get_autocast_gpu_dtype env)
    else x in
  self <- get ;;
  if bool_decide (scaling_type_input self = Config.DELAYED) then
    let scale_fn_name :=
      Config.scale_fn_name (Config.delayed_scaling_config (config self)) in
    fp8_amax_input <- getattr_buffer "fp8_amax_input" ;;
    fp8_amax_history_input <- getattr_buffer "fp8_amax_history_input" ;;
    fp8_scale_input <- getattr_buffer "fp8_scale_input" ;;
    on_buffers
      (_maybe_initialize_amaxes_scales_for_float8_cast x
         fp8_amax_input fp8_amax_history_input fp8_scale_input
         scale_fn_name e4m3_dtype is_amax_initialized true) ;;;
    fp8_scale_input <- getattr_buffer "fp8_scale_input" ;;
    fp8_amax_input <- getattr_buffer "fp8_amax_input" ;;
    X <- lift_result (GemmInputRole_getattr "X") ;;
    on_buffers
      (Float8Tensor_to_float8 x fp8_scale_input e4m3_dtype fp8_amax_input
         (linear_mm_config self) X)
  else if bool_decide (scaling_type_input self = Config.DYNAMIC) then
    ret (cast_to_float8_e4m3_dynamic x (linear_mm_config self) Omitted)
  else raise (AssertionError "").

(** [cast_w_to_float8] *)
Definition cast_w_to_float8 (w : tensor) (is_amax_initialized : bool)
  : M t tensor :=
  self <- get ;;
  if bool_decide (scaling_type_weight self = Config.DELAYED) then
    if is_Float8Tensor (weight self) then
      ret (weight self)
    else
      let scale_fn_name :=
        Config.scale_fn_name (Config.delayed_scaling_config (config self)) in
      fp8_amax_weight <- getattr_buffer "fp8_amax_weight" ;;
      fp8_amax_history_weight <- getattr_buffer "fp8_amax_history_weight" ;;
      fp8_scale_weight <- getattr_buffer "fp8_scale_weight" ;;
      on_buffers
        (_maybe_initialize_amaxes_scales_for_float8_cast w
           fp8_amax_weight fp8_amax_history_weight fp8_scale_weight
           scale_fn_name e4m3_dtype is_amax_initialized false) ;;;
      fp8_scale_weight <- getattr_buffer "fp8_scale_weight" ;;
      fp8_amax_weight <- getattr_buffer "fp8_amax_weight" ;;
      W <- lift_result (GemmInputRole_getattr "W") ;;
      on_buffers
        (Float8Tensor_to_float8 w fp8_scale_weight e4m3_dtype fp8_amax_weight
           (linear_mm_config self) W)
  else if bool_decide (scaling_type_weight self = Config.DYNAMIC) then
    if is_Float8Tensor (weight self) then
      ret (weight self)
    else
      W <- lift_result (GemmInputRole_getattr "W") ;;
      ret (cast_to_float8_e4m3_dynamic (weight self) (linear_mm_config self)
             (Passed W))
  else raise (AssertionError "").

(** The tensor a forward pass returns, with the backward node that
    [NoopFwToFloat8E5M2Bw.apply] has put on it, if any. *)
Record Output : Type := mkOutput {
  value : tensor;
  grad_fn : option NoopFwToFloat8E5M2Bw.ctx;
}.

(** [cast_y_to_float8_in_bw] *)
Definition cast_y_to_float8_in_bw (y : tensor) : M t Output :=
  self <- get ;;
  if bool_decide (scaling_type_grad_output self = Config.DELAYED) then
    let scale_fn_name :=
      Config.scale_fn_name (Config.delayed_scaling_config (config self)) in
    fp8_amax_grad_output <- getattr_buffer "fp8_amax_grad_output" ;;
    fp8_amax_history_grad_output <-
      getattr_buffer "fp8_amax_history_grad_output" ;;
    fp8_scale_grad_output <- getattr_buffer "fp8_scale_grad_output" ;;
    let '(y, c) :=
      NoopFwToFloat8E5M2Bw.forward y fp8_amax_grad_output
        fp8_amax_history_grad_output fp8_scale_grad_output scale_fn_name
        (is_amax_initialized self) (linear_mm_config self) in
    ret (mkOutput y (Some c))
  else if bool_decide (scaling_type_grad_output self = Config.DYNAMIC) then
    ret (mkOutput
           (cast_to_float8_e5m2_dynamic_bw y (linear_mm_config self)) None)
  else raise (AssertionError "").

Definition not_synced_msg : string :=
  "amaxes and scales not synced, please call `sync_float8_amax_and_scale_history` before forward".

(** [float8_pre_forward] *)
Definition float8_pre_forward (env : TorchGlobals) (x : tensor) : M t unit :=
  self <- get ;;
  if negb (enable_pre_and_post_forward self) then ret tt
  else if is_amax_initialized self
          && negb (amax_and_scale_synced self)
          && is_grad_enabled env
  then raise (AssertionError not_synced_msg)
  else modify (set_last_seen_input_dtype (Some (tensor_dtype x))).

(** [float8_post_forward] *)
Definition float8_post_forward : M t unit :=
  self <- get ;;
  if negb (enable_pre_and_post_forward self) then ret tt
  else
    modify (set_is_amax_initialized true) ;;;
    modify (set_amax_and_scale_synced false).

(** [forward] *)
Definition forward (env : TorchGlobals) (input : tensor) : M t Output :=
  self <- get ;;
  (if has_any_delayed_scaling self
   then float8_pre_forward env input else ret tt) ;;;
  self <- get ;;
  x_fp8 <- cast_x_to_float8 env input (is_amax_initialized self) ;;
  self <- get ;;
  w_fp8 <- cast_w_to_float8 (weight self) (is_amax_initialized self) ;;
  w_fp8_t <- lift_result (tensor_t w_fp8) ;;
  y <- lift_result (torch_matmul x_fp8 w_fp8_t) ;;
  y <- cast_y_to_float8_in_bw y ;;
  self <- get ;;
  let y :=
    match bias self with
    | Some b =>
        mkOutput (torch_add (value y) (tensor_to b (tensor_dtype (value y))))
          (grad_fn y)
    | None => y
    end in
  (if has_any_delayed_scaling self then float8_post_forward else ret tt) ;;;
  ret y.

End WithTorch.

Section WithImports.
Context {T : Torch} {C : Float8TensorCasts} {I : Float8LinearImports}.
Local Open Scope py_scope.

Definition set_weight (w : tensor) (self : t) : t :=
  mk w (bias self) (always_float32_buffers self)
     (scaling_type_input self) (scaling_type_weight self)
     (scaling_type_grad_output self) (has_any_delayed_scaling self)
     (config self) (_buffers self) (linear_mm_config self)
     (is_amax_initialized self) (amax_and_scale_synced self)
     (last_seen_input_dtype self) (enable_pre_and_post_forward self).

Definition set_bias (b : option tensor) (self : t) : t :=
  mk (weight self) b (always_float32_buffers self)
     (scaling_type_input self) (scaling_type_weight self)
     (scaling_type_grad_output self) (has_any_delayed_scaling self)
     (config self) (_buffers self) (linear_mm_config self)
     (is_amax_initialized self) (amax_and_scale_synced self)
     (last_seen_input_dtype self) (enable_pre_and_post_forward self).

(** [self._buffers[key]], which raises [KeyError] for a missing key. *)
Definition getitem_buffer (key : string) : M t tensor :=
  fun self =>
    match _buffers self !! key with
    | Some b => (self, Ok b)
    | None => (self, Raise (KeyError key))
    end.

(** [convert_amax_buffer_to_float32].  The loop runs over the elements of
    the set in the order [elements] lists them.  A buffer registered as
    [None] has no place in the store; this class registers tensors only, so
    the test [is not None] of the source always passes. *)
Definition convert_amax_buffer_to_float32 : M t unit :=
  self <- get ;;
  for_each (elements (always_float32_buffers self))
    (fun key =>
       b <- getitem_buffer key ;;
       modify (fun self =>
                 set_buffers (<[key := tensor_to b float32]> (_buffers self))
                   self)).

(** [_apply]: [super_apply] is [super()._apply(fn, recurse)] of
    [torch.nn.Module], for the [fn] and [recurse] of the call. *)
Definition _apply (super_apply : M t unit) : M t unit :=
  super_apply ;;;
  convert_amax_buffer_to_float32.

(** [from_float], with [mod_] for the argument [mod].  [meta_weight] is
    the weight that [torch.nn.Linear.__init__] makes on the meta device;
    [torch.nn.Parameter] wraps a tensor without changing it. *)
Definition from_float (mod_ : nn.Linear)
    (config : option Config.Float8LinearConfig) (meta_weight : tensor)
  : result t :=
  let config :=
    match config with
    | Some c => c
    | None => Float8LinearConfig_default
    end in
  let new_mod := init meta_weight None config in
  let rest : M t unit :=
    modify (set_weight (nn.weight mod_)) ;;;
    modify (set_bias (nn.bias mod_)) ;;;
    create_buffers ;;;
    if Config.enable_fsdp_float8_all_gather config then
      if bool_decide
           (Config.scaling_type (Config.cast_config_weight config)
            = Config.DYNAMIC)
      then
        new_mod <- get ;;
        modify (set_weight
                  (WeightWithDynamicFloat8CastTensor (weight new_mod)
                     (linear_mm_config new_mod)))
      else if bool_decide
                (Config.scaling_type (Config.cast_config_weight config)
                 = Config.DELAYED)
      then
        new_mod <- get ;;
        fp8_amax_weight <- getattr_buffer "fp8_amax_weight" ;;
        fp8_amax_history_weight <- getattr_buffer "fp8_amax_history_weight" ;;
        fp8_scale_weight <- getattr_buffer "fp8_scale_weight" ;;
        modify (set_weight
                  (WeightWithDelayedFloat8CastTensor (weight new_mod)
                     fp8_amax_weight fp8_amax_history_weight fp8_scale_weight
                     (linear_mm_config new_mod)
                     (is_amax_initialized new_mod)))
      else raise (AssertionError "")
    else ret tt in
  match rest new_mod with
  | (new_mod, Ok _) => Ok new_mod
  | (_, Raise e) => Raise e
  end.

End WithImports.
End Float8Linear.

(** The names of the nine buffers, in the order [create_buffers] registers
    them, and their initial contents. *)
Definition buffer_names : list string :=
  ["fp8_amax_input"; "fp8_amax_history_input"; "fp8_scale_input";
   "fp8_amax_weight"; "fp8_amax_history_weight"; "fp8_scale_weight";
   "fp8_amax_grad_output"; "fp8_amax_history_grad_output";
   "fp8_scale_grad_output"].

Definition default_buffers {T : Torch} (history_len : nat)
  : list (string * tensor) :=
  [("fp8_amax_input", Float8Linear.torch_tensor1 (finfo_max float8_e4m3fn));
   ("fp8_amax_history_input", Float8Linear.torch_zeros history_len);
   ("fp8_scale_input", Float8Linear.torch_tensor1 fp_one);
   ("fp8_amax_weight", Float8Linear.torch_tensor1 (finfo_max float8_e4m3fn));
   ("fp8_amax_history_weight", Float8Linear.torch_zeros history_len);
   ("fp8_scale_weight", Float8Linear.torch_tensor1 fp_one);
   ("fp8_amax_grad_output",
    Float8Linear.torch_tensor1 (finfo_max float8_e5m2));
   ("fp8_amax_history_grad_output", Float8Linear.torch_zeros history_len);
   ("fp8_scale_grad_output", Float8Linear.torch_tensor1 fp_one)].

(** ** The three gemms of a linear layer

    From the note at the head of [float8_tensor.py]:
    [input @ weight_t = output], [grad_output @ weight = grad_input],
    [input_t @ grad_output = grad_weight].  [gemm_of_roles a b sel] says that
    operands with roles [a] and [b] are the inputs of the gemm whose config
    is the entry [sel] of [LinearMMConfig]. *)
Inductive gemm_of_roles :
  GemmInputRole -> GemmInputRole -> (LinearMMConfig -> ScaledMMConfig) -> Prop :=
| gemm_output : gemm_of_roles INPUT WEIGHT output
| gemm_grad_input : gemm_of_roles GRAD_OUTPUT WEIGHT grad_input
| gemm_grad_weight : gemm_of_roles GRAD_OUTPUT INPUT grad_weight.

Definition gemm_role_pairs : list (option GemmInputRole * option GemmInputRole) :=
  [(Some INPUT, Some WEIGHT); (Some GRAD_OUTPUT, Some WEIGHT);
   (Some GRAD_OUTPUT, Some INPUT)].

(** ** An instance of the collaborators over the integers

    Elements are integers, the arithmetic is element-wise with a
    one-element right operand, and saturation clamps to the largest value of
    the format.  The definitions above are run on it in the examples. *)
Module Toy.

Definition elems (t : Tensor Z) : list Z :=
  match t with
  | Dense _ _ _ el => el
  | Float8 f => match _data f with Dense _ _ _ el => el | _ => [] end
  | _ => []
  end.

Definition item (t : Tensor Z) : Z := default 1%Z (head (elems t)).

Definition map_elems (f : Z -> Z) (t : Tensor Z) : Tensor Z :=
  match t with
  | Dense dt sz st el => Dense dt sz st (f <$> el)
  | _ => t
  end.

Definition fmax (d : Dtype) : Z :=
  match d with
  | float8_e4m3fn => 448
  | float8_e4m3fnuz => 240
  | float8_e5m2 | float8_e5m2fnuz => 57344
  | _ => 0
  end%Z.

Definition amax (t : Tensor Z) : Z := foldr Z.max 0%Z (Z.abs <$> elems t).

Definition to_dtype (t : Tensor Z) (d : Dtype) : Tensor Z :=
  match t with
  | Dense _ sz st el => Dense d sz st el
  | _ => t
  end.

Definition saturate (t : Tensor Z) (d : Dtype) : Tensor Z :=
  to_dtype (map_elems (fun v => Z.max (- fmax d) (Z.min (fmax d) v)) t) d.

Definition history_to_scale (history : Tensor Z) (float8_dtype _ : Dtype)
    (scale_fn_name : string) : result Z :=
  if bool_decide (scale_fn_name = "max") then
    Ok (if bool_decide (amax history = 0%Z) then 1%Z
        else (fmax float8_dtype / amax history)%Z)
  else Raise (NotImplementedError scale_fn_name).

Definition dynamic_cast (d : Dtype) (role : option GemmInputRole)
    (x : Tensor Z) (c : LinearMMConfig) : Tensor Z :=
  let s := if bool_decide (amax x = 0%Z) then 1%Z else (fmax d / amax x)%Z in
  Float8 (mkFloat8Tensor (saturate (map_elems (Z.mul s) x) d)
            (Dense float32 [] [] [s]) (tensor_dtype x) c role).

Definition torch : Torch := {|
  scalar := Z;
  fp_one := 1%Z;
  fp_zero := 0%Z;
  finfo_max := fmax;
  torch_mul := fun a b => map_elems (fun v => (v * item b)%Z) a;
  torch_div := fun a b => map_elems (fun v => (v / item b)%Z) a;
  torch_add := fun a b => map_elems (fun v => (v + item b)%Z) a;
  tensor_to := to_dtype;
  torch_matmul := fun a _ => Ok (Dense float32 [1] [1] [amax (local_of a)]);
  tensor_t := Ok;
  e4m3_dtype := float8_e4m3fn;
  e5m2_dtype := float8_e5m2;
  tensor_to_amax := fun t _ => amax t;
  to_fp8_saturated := saturate;
  amax_history_to_scale := history_to_scale;
  cast_to_float8_e4m3_dynamic :=
    fun x c role => dynamic_cast float8_e4m3fn (Some (kwarg_get INPUT role)) x c;
  cast_to_float8_e5m2_dynamic_bw := fun y _ => y;
|}.

#[local] Existing Instance torch.

Definition casts : Float8TensorCasts := {|
  to_fp8_no_autograd := fun x x_scale float8_dtype c role =>
    bind (buf_get x_scale) (fun s =>
    lift_result
      (ToFloat8ConstrFunc_forward x s (Passed float8_dtype)
         (Passed (Some c)) (Passed (Some role))));
  Float8Tensor_to_float8 := fun x x_scale float8_dtype amax_buffer c role =>
    bind (buf_fill_ amax_buffer (amax x)) (fun _ =>
    bind (buf_get x_scale) (fun s =>
    lift_result
      (ToFloat8ConstrFunc_forward x s (Passed float8_dtype)
         (Passed (Some c)) (Passed (Some role)))));
|}.

(** A dense float32 tensor of one dimension. *)
Definition vec (el : list Z) : Tensor Z :=
  Dense float32 [length el] [1] el.

(** A weight that is already a [Float8Tensor], as FSDP leaves it. *)
Definition fp8_weight : Tensor Z :=
  Float8 (mkFloat8Tensor
            (Dense float8_e4m3fn [2; 2] [2; 1] [448; 0; 0; 448]%Z)
            (Dense float32 [] [] [448%Z]) float32 LinearMMConfig_default
            (Some WEIGHT)).

(** Dynamic scaling for input and weight, delayed scaling for grad_output,
    with the two switches of the configuration left open. *)
Definition cfg (enable_amax_init enable_pre_and_post_forward : bool)
  : Config.Float8LinearConfig :=
  Config.mkFloat8LinearConfig
    (Config.mkCastConfig Config.DYNAMIC)
    (Config.mkCastConfig Config.DYNAMIC)
    (Config.mkCastConfig Config.DELAYED)
    (Config.mkFloat8GemmConfig true)
    (Config.mkFloat8GemmConfig false)
    (Config.mkFloat8GemmConfig false)
    true false true enable_amax_init enable_pre_and_post_forward
    (Config.mkDelayedScalingConfig 2 "max").

Definition layer (enable_amax_init enable_pre_and_post_forward : bool)
  : Float8Linear.t (T := torch) :=
  Float8Linear.init (T := torch) fp8_weight None
    (cfg enable_amax_init enable_pre_and_post_forward).

(** A tagged tensor with a given config and role, and a config whose
    [output] entry differs from the default one. *)
Definition tagged (c : LinearMMConfig) (r : GemmInputRole) : Float8Tensor Z :=
  mkFloat8Tensor (Dense float8_e4m3fn [2] [1] [448; -448]%Z)
    (Dense float32 [] [] [448%Z]) float32 c (Some r).

Definition slow_accum : LinearMMConfig :=
  mkLinearMMConfig ScaledMMConfig_default ScaledMMConfig_default
    ScaledMMConfig_default.

(** Gradient tracking on, autocast off. *)
Definition env : TorchGlobals := mkTorchGlobals true false bfloat16.

(** The context that a forward pass of [layer] saves for the backward pass,
    and the buffers of the layer. *)
Definition grad_ctx (is_amax_initialized : bool)
  : NoopFwToFloat8E5M2Bw.ctx :=
  NoopFwToFloat8E5M2Bw.mkCtx
    ("fp8_amax_grad_output", "fp8_amax_history_grad_output",
     "fp8_scale_grad_output")
    "max" is_amax_initialized LinearMMConfig_default.

(** The imports of [from_float]: every role dynamic by default, and
    wrappers that mark the weight by wrapping it. *)
Definition imports : Float8LinearImports := {|
  Float8LinearConfig_default :=
    Config.mkFloat8LinearConfig
      (Config.mkCastConfig Config.DYNAMIC)
      (Config.mkCastConfig Config.DYNAMIC)
      (Config.mkCastConfig Config.DYNAMIC)
      (Config.mkFloat8GemmConfig true)
      (Config.mkFloat8GemmConfig false)
      (Config.mkFloat8GemmConfig false)
      false false false true true
      (Config.mkDelayedScalingConfig 16 "max");
  WeightWithDynamicFloat8CastTensor := fun w _ => AsyncCollectiveTensor w;
  WeightWithDelayedFloat8CastTensor :=
    fun w _ _ _ _ _ => AsyncCollectiveTensor w;
|}.

(** A dense layer with a 2x2 weight and no bias, and a configuration with
    delayed scaling on every role. *)
Definition linear : nn.Linear :=
  nn.mkLinear torch (Dense float32 [2; 2] [2; 1] [1; 0; 0; 1]%Z) None.

Definition cfg_delayed (history_len : nat) (fsdp : bool)
  : Config.Float8LinearConfig :=
  Config.mkFloat8LinearConfig
    (Config.mkCastConfig Config.DELAYED)
    (Config.mkCastConfig Config.DELAYED)
    (Config.mkCastConfig Config.DELAYED)
    (Config.mkFloat8GemmConfig true)
    (Config.mkFloat8GemmConfig false)
    (Config.mkFloat8GemmConfig false)
    fsdp false true true true
    (Config.mkDelayedScalingConfig history_len "max").

(** The same operations with [float8_utils] set to the fnuz flavors:
    [e4m3_dtype] is [torch.float8_e4m3fnuz], whose largest finite value is
    240, and [e5m2_dtype] is [torch.float8_e5m2fnuz], whose largest finite
    value is 57344, that of [torch.float8_e5m2]. *)
Definition torch_fnuz : Torch := {|
  scalar := Z;
  fp_one := 1%Z;
  fp_zero := 0%Z;
  finfo_max := fmax;
  torch_mul := fun a b => map_elems (fun v => (v * item b)%Z) a;
  torch_div := fun a b => map_elems (fun v => (v / item b)%Z) a;
  torch_add := fun a b => map_elems (fun v => (v + item b)%Z) a;
  tensor_to := to_dtype;
  torch_matmul := fun a _ => Ok (Dense float32 [1] [1] [amax (local_of a)]);
  tensor_t := Ok;
  e4m3_dtype := float8_e4m3fnuz;
  e5m2_dtype := float8_e5m2fnuz;
  tensor_to_amax := fun t _ => amax t;
  to_fp8_saturated := saturate;
  amax_history_to_scale := history_to_scale;
  cast_to_float8_e4m3_dynamic :=
    fun x c role =>
      dynamic_cast float8_e4m3fnuz (Some (kwarg_get INPUT role)) x c;
  cast_to_float8_e5m2_dynamic_bw := fun y _ => y;
|}.

End Toy.


(** * Properties of float8_tensor.py *)

Section Float8TensorProperties.
Context {T : Torch}.

Lemma Float8Tensor_new_single data scale orig_dtype cfg role :
  numel scale = 1 ->
  Float8Tensor_new data scale orig_dtype cfg role =
  Ok (mkFloat8Tensor data scale orig_dtype
        (match cfg with Some c => c | None => LinearMMConfig_default end)
        (kwarg_get (Some INPUT) role)).
Proof.
  intros Hn. unfold Float8Tensor_new. by rewrite bool_decide_eq_true_2.
Qed.

Lemma Float8Tensor_new_not_single data scale orig_dtype cfg role :
  numel scale <> 1 ->
  Float8Tensor_new data scale orig_dtype cfg role =
  Raise (AssertionError (scale_numel_msg (numel scale))).
Proof.
  intros Hn. unfold Float8Tensor_new. by rewrite bool_decide_eq_false_2.
Qed.

Lemma Float8Tensor_new_inv data scale orig_dtype cfg role f :
  Float8Tensor_new data scale orig_dtype cfg role = Ok f ->
  numel scale = 1 /\
  f = mkFloat8Tensor data scale orig_dtype
        (match cfg with Some c => c | None => LinearMMConfig_default end)
        (kwarg_get (Some INPUT) role).
Proof.
  unfold Float8Tensor_new. case_bool_decide; [|discriminate].
  intros [= <-]. done.
Qed.

(** What a successful [_ToFloat8ConstrFunc.forward] has returned. *)
Lemma ToFloat8ConstrFunc_forward_inv t scale float8_dtype cfg role r :
  ToFloat8ConstrFunc_forward t scale float8_dtype cfg role = Ok r ->
  let bits := to_fp8_saturated (torch_mul t scale)
                (kwarg_get e4m3_dtype float8_dtype) in
  exists f,
    float8_of r = Some f
    /\ numel (_scale f) = 1
    /\ f = mkFloat8Tensor (local_of bits)
             (if is_DTensor bits then local_of scale else scale)
             (tensor_dtype t)
             (match kwarg_get None cfg with
              | Some c => c
              | None => LinearMMConfig_default
              end)
             (kwarg_get (Some INPUT) role).
Proof.
  unfold ToFloat8ConstrFunc_forward. cbv zeta.
  destruct (to_fp8_saturated _ _) as [dt sz st el|f0|l m p sz st|e] eqn:Hbits.
  - destruct (Float8Tensor_new _ _ _ _ _) as [f|] eqn:Hnew; [|discriminate].
    intros [= <-]. apply Float8Tensor_new_inv in Hnew as [Hn ->].
    eexists. split_and!; [done|done|done].
  - destruct (Float8Tensor_new _ _ _ _ _) as [f|] eqn:Hnew; [|discriminate].
    intros [= <-]. apply Float8Tensor_new_inv in Hnew as [Hn ->].
    eexists. split_and!; [done|done|done].
  - destruct scale as [| |ls ? ? ? ?|]; try discriminate.
    destruct (Float8Tensor_new _ _ _ _ _) as [f|] eqn:Hnew; [|discriminate].
    intros [= <-]. apply Float8Tensor_new_inv in Hnew as [Hn ->].
    eexists. split_and!; [done|done|done].
  - destruct (Float8Tensor_new _ _ _ _ _) as [f|] eqn:Hnew; [|discriminate].
    intros [= <-]. apply Float8Tensor_new_inv in Hnew as [Hn ->].
    eexists. split_and!; [done|done|done].
Qed.

Lemma hp_tensor_and_scale_to_float8_forward hp_tensor s float8_dtype cfg role :
  hp_tensor_and_scale_to_float8 hp_tensor s float8_dtype cfg role =
  ToFloat8ConstrFunc_forward hp_tensor s float8_dtype cfg role.
Proof. by destruct float8_dtype, cfg, role. Qed.

Lemma choose_output a b :
  choose_scaled_mm_config (Some INPUT) a (Some WEIGHT) b =
  if bool_decide (output a = output b) then Ok (output a)
  else Raise (AssertionError (mismatch_msg "output" (output a) (output b))).
Proof. reflexivity. Qed.

Lemma choose_grad_input a b :
  choose_scaled_mm_config (Some GRAD_OUTPUT) a (Some WEIGHT) b =
  if bool_decide (grad_input a = grad_input b) then Ok (grad_input a)
  else Raise (AssertionError
                (mismatch_msg "grad_input" (grad_input a) (grad_input b))).
Proof. reflexivity. Qed.

Lemma choose_grad_weight a b :
  choose_scaled_mm_config (Some GRAD_OUTPUT) a (Some INPUT) b =
  if bool_decide (grad_weight a = grad_weight b) then Ok (grad_weight a)
  else Raise (AssertionError
                (mismatch_msg "grad_weight" (grad_weight a) (grad_weight b))).
Proof. reflexivity. Qed.

Lemma choose_unexpected a_role b_role a b :
  (a_role, b_role) ∉ gemm_role_pairs ->
  choose_scaled_mm_config a_role a b_role b =
  Raise (AssertionError (unexpected_roles_msg a_role b_role)).
Proof.
  intros Hpair.
  destruct a_role as [[]|], b_role as [[]|]; try reflexivity;
    exfalso; apply Hpair; unfold gemm_role_pairs; set_solver.
Qed.

(** C3: of the ordered role pairs given to [choose_scaled_mm_config],
    (INPUT, WEIGHT), (GRAD_OUTPUT, WEIGHT) and (GRAD_OUTPUT, INPUT) select
    the [output], [grad_input] and [grad_weight] entry: the call compares
    that entry of the two operands and returns it (it raises when the two
    sides differ there); every other ordered pair, a missing role included,
    raises the "unexpected role" assertion whatever the configs are. *)
Theorem choose_scaled_mm_config_by_roles :
  (forall a b,
     choose_scaled_mm_config (Some INPUT) a (Some WEIGHT) b =
     if bool_decide (output a = output b) then Ok (output a)
     else Raise (AssertionError
                   (mismatch_msg "output" (output a) (output b))))
  /\ (forall a b,
     choose_scaled_mm_config (Some GRAD_OUTPUT) a (Some WEIGHT) b =
     if bool_decide (grad_input a = grad_input b) then Ok (grad_input a)
     else Raise (AssertionError
                   (mismatch_msg "grad_input" (grad_input a) (grad_input b))))
  /\ (forall a b,
     choose_scaled_mm_config (Some GRAD_OUTPUT) a (Some INPUT) b =
     if bool_decide (grad_weight a = grad_weight b) then Ok (grad_weight a)
     else Raise (AssertionError
                   (mismatch_msg "grad_weight" (grad_weight a)
                      (grad_weight b))))
  /\ (forall a_role b_role a b,
     (a_role, b_role) ∉ gemm_role_pairs ->
     choose_scaled_mm_config a_role a b_role b =
     Raise (AssertionError (unexpected_roles_msg a_role b_role))).
Proof.
  split_and!.
  - apply choose_output.
  - apply choose_grad_input.
  - apply choose_grad_weight.
  - apply choose_unexpected.
Qed.

(** C6: for two tagged tensors whose roles select one of the three gemms,
    [choose_scaled_mm_config] raises an assertion error when their
    [LinearMMConfig] entries for that gemm differ, and returns the entry,
    which is then the entry of both, when they agree. *)
Theorem choose_scaled_mm_config_mismatch_fails
    (fa fb : float8tensor) (ra rb : GemmInputRole)
    (sel : LinearMMConfig -> ScaledMMConfig) :
  _gemm_input_role fa = Some ra ->
  _gemm_input_role fb = Some rb ->
  gemm_of_roles ra rb sel ->
  let r := choose_scaled_mm_config
             (_gemm_input_role fa) (_linear_mm_config fa)
             (_gemm_input_role fb) (_linear_mm_config fb) in
  (sel (_linear_mm_config fa) <> sel (_linear_mm_config fb) ->
   exists msg, r = Raise (AssertionError msg))
  /\ (sel (_linear_mm_config fa) = sel (_linear_mm_config fb) ->
      r = Ok (sel (_linear_mm_config fa))
      /\ r = Ok (sel (_linear_mm_config fb))).
Proof.
  intros -> -> Hsel r. subst r.
  destruct Hsel;
    rewrite ?choose_output, ?choose_grad_input, ?choose_grad_weight;
    (split; intros Hcfg;
      [rewrite bool_decide_eq_false_2 by done; eauto
      |rewrite bool_decide_eq_true_2 by done; by rewrite Hcfg]).
Qed.

(** C7: a [Float8Tensor] has a scale of exactly one element.  The
    constructor raises an assertion error for a scale with another number of
    elements, and whatever it returns has a one-element scale; so has every
    [Float8Tensor] made by the operations of the file: the forward cast,
    [hp_tensor_and_scale_to_float8] and [__tensor_unflatten__]. *)
Theorem Float8Tensor_scale_single_element :
  (forall data scale orig_dtype cfg role,
     numel scale <> 1 ->
     Float8Tensor_new data scale orig_dtype cfg role =
     Raise (AssertionError (scale_numel_msg (numel scale))))
  /\ (forall data scale orig_dtype cfg role f,
     Float8Tensor_new data scale orig_dtype cfg role = Ok f ->
     numel (_scale f) = 1)
  /\ (forall t scale float8_dtype cfg role r,
     ToFloat8ConstrFunc_forward t scale float8_dtype cfg role = Ok r ->
     exists f, float8_of r = Some f /\ numel (_scale f) = 1)
  /\ (forall t scale float8_dtype cfg role r,
     hp_tensor_and_scale_to_float8 t scale float8_dtype cfg role = Ok r ->
     exists f, float8_of r = Some f /\ numel (_scale f) = 1)
  /\ (forall inner_tensors metadata f,
     tensor_unflatten inner_tensors metadata = Ok f ->
     numel (_scale f) = 1).
Proof.
  split_and!.
  - intros. by apply Float8Tensor_new_not_single.
  - intros * Hnew. by apply Float8Tensor_new_inv in Hnew as [Hn ->].
  - intros * Hfw. apply ToFloat8ConstrFunc_forward_inv in Hfw as (f & ? & ? & _).
    eauto.
  - intros * Hfw. rewrite hp_tensor_and_scale_to_float8_forward in Hfw.
    apply ToFloat8ConstrFunc_forward_inv in Hfw as (f & ? & ? & _). eauto.
  - intros * Hun. unfold tensor_unflatten in Hun.
    case_bool_decide; [|discriminate].
    destruct (inner_tensors !! "_data"); [|discriminate].
    destruct (inner_tensors !! "_scale"); [|discriminate].
    by apply Float8Tensor_new_inv in Hun as [Hn ->].
Qed.

(** C4: the forward cast multiplies the tensor by the scale and then
    saturates the product to the float8 format; for a one-element scale it
    returns a [Float8Tensor] of that data whose [_orig_dtype] is the dtype
    of the input tensor (made of the local tensors and wrapped in a
    [DTensor] again when the product is a [DTensor]), and whatever it
    returns is such a tensor.  Its backward returns the incoming gradient
    for the tensor argument and [None] for every other argument. *)
Theorem ToFloat8ConstrFunc_forward_backward
    (t scale : tensor) (float8_dtype : kwarg Dtype)
    (cfg : kwarg (option LinearMMConfig))
    (role : kwarg (option GemmInputRole)) :
  let bits := to_fp8_saturated (torch_mul t scale)
                (kwarg_get e4m3_dtype float8_dtype) in
  let config :=
    match kwarg_get None cfg with
    | Some c => c
    | None => LinearMMConfig_default
    end in
  (numel scale = 1 -> is_DTensor bits = false ->
   ToFloat8ConstrFunc_forward t scale float8_dtype cfg role =
   Ok (Float8 (mkFloat8Tensor bits scale (tensor_dtype t) config
                 (kwarg_get (Some INPUT) role))))
  /\ (forall local mesh placements sz st local_scale mesh' placements' sz' st',
      bits = DTensor local mesh placements sz st ->
      scale = DTensor local_scale mesh' placements' sz' st' ->
      numel local_scale = 1 ->
      ToFloat8ConstrFunc_forward t scale float8_dtype cfg role =
      Ok (DTensor
            (Float8 (mkFloat8Tensor local local_scale (tensor_dtype t) config
                       (kwarg_get (Some INPUT) role)))
            mesh placements sz st))
  /\ (forall r,
      ToFloat8ConstrFunc_forward t scale float8_dtype cfg role = Ok r ->
      exists f,
        float8_of r = Some f
        /\ _data f = local_of bits
        /\ _scale f = (if is_DTensor bits then local_of scale else scale)
        /\ _orig_dtype f = tensor_dtype t
        /\ _linear_mm_config f = config
        /\ _gemm_input_role f = kwarg_get (Some INPUT) role)
  /\ hp_tensor_and_scale_to_float8 t scale float8_dtype cfg role =
     ToFloat8ConstrFunc_forward t scale float8_dtype cfg role
  /\ (forall g,
      ToFloat8ConstrFunc_backward g = [Some g; None; None; None; None; None]).
Proof.
  intros bits config. split_and!.
  - intros Hn Hd. unfold ToFloat8ConstrFunc_forward. cbv zeta. fold bits.
    rewrite !Float8Tensor_new_single by done.
    by destruct bits.
  - intros * Hbits -> Hn. unfold ToFloat8ConstrFunc_forward. cbv zeta.
    fold bits. rewrite Hbits. by rewrite Float8Tensor_new_single.
  - intros r Hfw.
    apply ToFloat8ConstrFunc_forward_inv in Hfw as (f & Hf & _ & ->).
    eexists. split; [exact Hf|done].
  - apply hp_tensor_and_scale_to_float8_forward.
  - done.
Qed.

(** C8: conversion back to the original precision is the data converted to
    [_orig_dtype] divided by the scale converted to [_orig_dtype]; it is a
    function of the stored data, scale and dtype alone, and its backward
    passes the gradient through. *)
Theorem to_original_precision_eq :
  (forall f : float8tensor,
     to_original_precision f =
     torch_div (tensor_to (_data f) (_orig_dtype f))
               (tensor_to (_scale f) (_orig_dtype f)))
  /\ (forall data scale orig_dtype c1 r1 c2 r2,
     to_original_precision (mkFloat8Tensor data scale orig_dtype c1 r1) =
     to_original_precision (mkFloat8Tensor data scale orig_dtype c2 r2))
  /\ (forall g, FromFloat8ConstrFunc_backward g = [Some g; None; None]).
Proof. done. Qed.

End Float8TensorProperties.

(** * Properties of float8_linear.py *)

Section MonadFacts.
Context {S : Type}.

Lemma bind_ok {A B} (m : M S A) (k : A -> M S B) s s' a :
  m s = (s', Ok a) -> bind m k s = k a s'.
Proof. unfold bind. by intros ->. Qed.

Lemma bind_raise {A B} (m : M S A) (k : A -> M S B) s s' e :
  m s = (s', Raise e) -> bind m k s = (s', Raise e).
Proof. unfold bind. by intros ->. Qed.

Lemma bind_ok_inv {A B} (m : M S A) (k : A -> M S B) s s2 b :
  bind m k s = (s2, Ok b) ->
  exists s1 a, m s = (s1, Ok a) /\ k a s1 = (s2, Ok b).
Proof.
  unfold bind. destruct (m s) as [s1 [a|e]]; [eauto|discriminate].
Qed.

Lemma bind_raises_l {A B} (m : M S A) (k : A -> M S B) s :
  is_ok (m s).2 = false -> is_ok (bind m k s).2 = false.
Proof. unfold bind. by destruct (m s) as [s' [a|e]]. Qed.

Lemma bind_raises_r {A B} (m : M S A) (k : A -> M S B) s :
  (forall a s', is_ok (k a s').2 = false) -> is_ok (bind m k s).2 = false.
Proof. intros Hk. unfold bind. destruct (m s) as [s' [a|e]]; [apply Hk|done]. Qed.

End MonadFacts.

Section InitializationProperties.
Context {T : Torch}.

Lemma buf_fill__present (r : ref) v (bufs : gmap string tensor) t :
  bufs !! r = Some t ->
  buf_fill_ r v bufs = (<[r := fill_ t v]> bufs, Ok tt).
Proof. intros Hr. unfold buf_fill_, bind, buf_get. by rewrite Hr. Qed.

Lemma buf_fill__absent (r : ref) v (bufs : gmap string tensor) :
  bufs !! r = None ->
  buf_fill_ r v bufs = (bufs, Raise (AttributeError r)).
Proof. intros Hr. unfold buf_fill_, bind, buf_get. by rewrite Hr. Qed.

(** The transition on a state that is not initialized: the amax of the
    tensor goes to the current amax and to the head of the history, and the
    scale derived from the resulting history goes to the scale buffer.  The
    three references may be aliases of one another. *)
Lemma maybe_initialize_uninitialized
    (x : tensor) (cur_amax amax_history scale : ref) (scale_fn_name : string)
    (float8_dtype : Dtype) (reduce_amax : bool)
    (bufs : gmap string tensor) (ta th th' ts : tensor) (new_scale : scalar) :
  let new_amax := tensor_to_amax x (Passed reduce_amax) in
  let bufs1 := <[cur_amax := fill_ ta new_amax]> bufs in
  let bufs2 := <[amax_history := th']> bufs1 in
  bufs !! cur_amax = Some ta ->
  bufs1 !! amax_history = Some th ->
  setitem0 th new_amax = Ok th' ->
  amax_history_to_scale th' float8_dtype (tensor_dtype x) scale_fn_name
    = Ok new_scale ->
  bufs2 !! scale = Some ts ->
  _maybe_initialize_amaxes_scales_for_float8_cast x cur_amax amax_history
    scale scale_fn_name float8_dtype false reduce_amax bufs =
  (<[scale := copy_ ts new_scale]> bufs2, Ok tt).
Proof.
  intros new_amax bufs1 bufs2 Ha Hh Hset Hscale Hs.
  unfold _maybe_initialize_amaxes_scales_for_float8_cast.
  fold new_amax.
  rewrite (bind_ok _ _ bufs bufs1 tt) by (by apply buf_fill__present).
  rewrite (bind_ok _ _ bufs1 bufs2 tt).
  2:{ unfold buf_setitem0, bind, buf_get, lift_result, modify.
      by rewrite Hh, Hset. }
  rewrite (bind_ok _ _ bufs2 bufs2 th').
  2:{ unfold buf_get. subst bufs2. by rewrite lookup_insert_eq. }
  rewrite (bind_ok _ _ bufs2 bufs2 new_scale)
    by (unfold lift_result; by rewrite Hscale).
  unfold buf_copy_, bind, buf_get, modify. by rewrite Hs.
Qed.

(** C5: on a state that is already initialized, the initialization
    transition does nothing: it returns normally and leaves the whole buffer
    store, so the current amax, the amax history and the scale, as they
    were, for every tensor and every setting of the other arguments. *)
Theorem maybe_initialize_initialized_is_noop
    (x : tensor) (cur_amax amax_history scale : ref) (scale_fn_name : string)
    (float8_dtype : Dtype) (reduce_amax : bool)
    (bufs : gmap string tensor) :
  let after :=
    _maybe_initialize_amaxes_scales_for_float8_cast x cur_amax amax_history
      scale scale_fn_name float8_dtype true reduce_amax bufs in
  after = (bufs, Ok tt)
  /\ after.1 !! cur_amax = bufs !! cur_amax
  /\ after.1 !! amax_history = bufs !! amax_history
  /\ after.1 !! scale = bufs !! scale.
Proof. done. Qed.

End InitializationProperties.

Section LayerProperties.
Context {T : Torch} {C : Float8TensorCasts}.
Import Float8Linear.

(** The buffers after [create_buffers], for a layer with delayed scaling on
    some role: the nine buffers, written over whatever was registered. *)
Lemma create_buffers_delayed (self : Float8Linear.t) :
  has_any_delayed_scaling self = true ->
  let history_len :=
    Config.history_len (Config.delayed_scaling_config (config self)) in
  _buffers (create_buffers self).1 =
    <["fp8_scale_grad_output" := torch_tensor1 fp_one]>
    (<["fp8_amax_history_grad_output" := torch_zeros history_len]>
    (<["fp8_amax_grad_output" := torch_tensor1 (finfo_max float8_e5m2)]>
    (<["fp8_scale_weight" := torch_tensor1 fp_one]>
    (<["fp8_amax_history_weight" := torch_zeros history_len]>
    (<["fp8_amax_weight" := torch_tensor1 (finfo_max float8_e4m3fn)]>
    (<["fp8_scale_input" := torch_tensor1 fp_one]>
    (<["fp8_amax_history_input" := torch_zeros history_len]>
    (<["fp8_amax_input" := torch_tensor1 (finfo_max float8_e4m3fn)]>
       (_buffers self)))))))))
  /\ (create_buffers self).2 = Ok tt.
Proof.
  intros Hd. unfold create_buffers, bind, get. rewrite Hd. done.
Qed.

Lemma create_buffers_dynamic (self : Float8Linear.t) :
  has_any_delayed_scaling self = false ->
  create_buffers self = (self, Ok tt).
Proof.
  intros Hd. unfold create_buffers, bind, get. by rewrite Hd.
Qed.

Lemma init_has_any_delayed_scaling weight bias cfg :
  has_any_delayed_scaling (init weight bias cfg) = true <->
  Config.scaling_type (Config.cast_config_input cfg) = Config.DELAYED
  \/ Config.scaling_type (Config.cast_config_weight cfg) = Config.DELAYED
  \/ Config.scaling_type (Config.cast_config_grad_output cfg) = Config.DELAYED.
Proof.
  unfold init, create_buffers, bind, get. cbn.
  destruct (Config.scaling_type (Config.cast_config_input cfg)),
    (Config.scaling_type (Config.cast_config_weight cfg)),
    (Config.scaling_type (Config.cast_config_grad_output cfg));
    cbn; split; intros Hd; try done; try (by auto);
    by destruct Hd as [|[|]].
Qed.

(** C9: a layer constructed with delayed scaling on some role has its three
    scale buffers set to 1.0, and its amax buffers set to the largest finite
    value of the float8 format the role is cast to, [e4m3_dtype] for input
    and weight and [e5m2_dtype] for grad_output, provided that value is the
    one [create_buffers] writes out: [torch.finfo(torch.float8_e4m3fn).max]
    for input and weight, [torch.finfo(torch.float8_e5m2).max] for
    grad_output.  This is so when [e4m3_dtype] is [torch.float8_e4m3fn] and
    [e5m2_dtype] is [torch.float8_e5m2].  Each buffer is a one-element
    float32 tensor. *)
Theorem init_buffer_defaults (weight : tensor) (bias : option tensor)
    (cfg : Config.Float8LinearConfig) :
  Config.scaling_type (Config.cast_config_input cfg) = Config.DELAYED
  \/ Config.scaling_type (Config.cast_config_weight cfg) = Config.DELAYED
  \/ Config.scaling_type (Config.cast_config_grad_output cfg) = Config.DELAYED ->
  let buffers := _buffers (init weight bias cfg) in
  (buffers !! "fp8_scale_input" = Some (Dense float32 [1] [1] [fp_one])
   /\ buffers !! "fp8_scale_weight" = Some (Dense float32 [1] [1] [fp_one])
   /\ buffers !! "fp8_scale_grad_output"
     = Some (Dense float32 [1] [1] [fp_one]))
  /\ (finfo_max e4m3_dtype = finfo_max float8_e4m3fn ->
      buffers !! "fp8_amax_input"
        = Some (Dense float32 [1] [1] [finfo_max e4m3_dtype])
      /\ buffers !! "fp8_amax_weight"
        = Some (Dense float32 [1] [1] [finfo_max e4m3_dtype]))
  /\ (finfo_max e5m2_dtype = finfo_max float8_e5m2 ->
      buffers !! "fp8_amax_grad_output"
        = Some (Dense float32 [1] [1] [finfo_max e5m2_dtype])).
Proof.
  intros Hd buffers. subst buffers. unfold init.
  match goal with |- context [create_buffers ?s] => set (self := s) end.
  assert (has_any_delayed_scaling self = true) as Hany.
  { subst self. cbn.
    destruct Hd as [ -> | [ -> | -> ] ]; cbn; by rewrite ?orb_true_r. }
  destruct (create_buffers_delayed self Hany) as [-> _].
  split_and!.
  - by simplify_map_eq.
  - by simplify_map_eq.
  - by simplify_map_eq.
  - intros ->. split; by simplify_map_eq.
  - intros ->. by simplify_map_eq.
Qed.

(** C10: when the weight of the layer is already a [Float8Tensor],
    [cast_w_to_float8] returns that tensor itself and leaves the layer, its
    buffers included, as it was, whichever scaling type the weight has:
    nothing is initialized or written, and no cast is made. *)
Theorem cast_w_to_float8_precast (self : Float8Linear.t) (w : tensor)
    (is_amax_initialized : bool) (f : float8tensor) :
  weight self = Float8 f ->
  cast_w_to_float8 w is_amax_initialized self = (self, Ok (Float8 f))
  /\ _buffers (cast_w_to_float8 w is_amax_initialized self).1 = _buffers self.
Proof.
  intros Hw.
  assert (cast_w_to_float8 w is_amax_initialized self = (self, Ok (Float8 f)))
    as ->; [|done].
  unfold cast_w_to_float8, bind, get. rewrite Hw.
  by destruct (scaling_type_weight self).
Qed.

End LayerProperties.

Section GradOutputBoundary.
Context {T : Torch} {C : Float8TensorCasts}.

(** The enumeration of [float8_tensor.py] has the members INPUT, WEIGHT and
    GRAD_OUTPUT, and none of the names X, W and DL_DY that
    [float8_linear.py] asks of it. *)
Lemma GemmInputRole_getattr_members :
  GemmInputRole_getattr "INPUT" = Ok INPUT
  /\ GemmInputRole_getattr "WEIGHT" = Ok WEIGHT
  /\ GemmInputRole_getattr "GRAD_OUTPUT" = Ok GRAD_OUTPUT.
Proof. done. Qed.

Lemma GemmInputRole_getattr_stale :
  GemmInputRole_getattr "X" = Raise (AttributeError "X")
  /\ GemmInputRole_getattr "W" = Raise (AttributeError "W")
  /\ GemmInputRole_getattr "DL_DY" = Raise (AttributeError "DL_DY").
Proof. done. Qed.

(** [backward] is its first two steps, the initialization under the
    captured flag and the write of the gradient's amax, followed by the
    failing attribute access. *)
Lemma backward_unfold c go bufs :
  NoopFwToFloat8E5M2Bw.backward c go bufs =
  let '(a, h, s) := NoopFwToFloat8E5M2Bw.saved_tensors c in
  match
    bind
      (_maybe_initialize_amaxes_scales_for_float8_cast go a h s
         (NoopFwToFloat8E5M2Bw.scale_fn_name c) e5m2_dtype
         (NoopFwToFloat8E5M2Bw.is_amax_initialized c) true)
      (fun _ => buf_fill_ a (tensor_to_amax go Omitted)) bufs
  with
  | (bufs', Ok _) => (bufs', Raise (AttributeError "DL_DY"))
  | (bufs', Raise e) => (bufs', Raise e)
  end.
Proof.
  unfold NoopFwToFloat8E5M2Bw.backward.
  destruct (NoopFwToFloat8E5M2Bw.saved_tensors c) as [[a h] s].
  unfold bind.
  destruct (_maybe_initialize_amaxes_scales_for_float8_cast _ _ _ _ _ _ _ _ _)
    as [b1 [[]|e1]]; [|done].
  destruct (buf_fill_ a _ b1) as [b2 [[]|e2]]; done.
Qed.

(** C1: [forward] returns its tensor unchanged and saves the three buffer
    references, the scale function name, the initialization flag and the
    config.  [backward] runs the initialization transition with
    [reduce_amax=True] under the captured flag and writes the amax of the
    gradient to the amax buffer; it then evaluates [GemmInputRole.DL_DY],
    which the enumeration does not have, and raises [AttributeError]: it
    never returns a gradient. *)
Theorem NoopFwToFloat8E5M2Bw_backward_raises :
  (forall t a h s name init cfg,
     NoopFwToFloat8E5M2Bw.forward t a h s name init cfg =
     (t, NoopFwToFloat8E5M2Bw.mkCtx (a, h, s) name init cfg))
  /\ (forall c go bufs,
     is_ok (NoopFwToFloat8E5M2Bw.backward c go bufs).2 = false)
  /\ (forall c go bufs,
     NoopFwToFloat8E5M2Bw.backward c go bufs =
     let '(a, h, s) := NoopFwToFloat8E5M2Bw.saved_tensors c in
     match
       bind
         (_maybe_initialize_amaxes_scales_for_float8_cast go a h s
            (NoopFwToFloat8E5M2Bw.scale_fn_name c) e5m2_dtype
            (NoopFwToFloat8E5M2Bw.is_amax_initialized c) true)
         (fun _ => buf_fill_ a (tensor_to_amax go Omitted)) bufs
     with
     | (bufs', Ok _) => (bufs', Raise (AttributeError "DL_DY"))
     | (bufs', Raise e) => (bufs', Raise e)
     end)
  /\ (forall c go bufs a h s ta,
     NoopFwToFloat8E5M2Bw.saved_tensors c = (a, h, s) ->
     NoopFwToFloat8E5M2Bw.is_amax_initialized c = true ->
     bufs !! a = Some ta ->
     NoopFwToFloat8E5M2Bw.backward c go bufs =
     (<[a := fill_ ta (tensor_to_amax go Omitted)]> bufs,
      Raise (AttributeError "DL_DY"))).
Proof.
  split_and!.
  - done.
  - intros c go bufs. rewrite backward_unfold.
    destruct (NoopFwToFloat8E5M2Bw.saved_tensors c) as [[a h] s].
    by destruct (bind _ _ bufs) as [b [[]|e]].
  - apply backward_unfold.
  - intros c go bufs a h s ta Hsaved Hinit Ha.
    rewrite backward_unfold, Hsaved, Hinit.
    cbn [_maybe_initialize_amaxes_scales_for_float8_cast].
    unfold bind, ret.
    by rewrite (buf_fill__present _ _ _ _ Ha).
Qed.

End GradOutputBoundary.

Section ForwardSequencing.
Context {T : Torch} {C : Float8TensorCasts}.
Import Float8Linear.

Lemma float8_pre_forward_pass env x (self : Float8Linear.t) :
  enable_pre_and_post_forward self = true ->
  is_amax_initialized self && negb (amax_and_scale_synced self)
    && is_grad_enabled env = false ->
  float8_pre_forward env x self =
  (set_last_seen_input_dtype (Some (tensor_dtype x)) self, Ok tt).
Proof.
  intros He Hc. unfold float8_pre_forward, bind, get. by rewrite He, Hc.
Qed.

Lemma float8_pre_forward_not_synced env x (self : Float8Linear.t) :
  enable_pre_and_post_forward self = true ->
  is_amax_initialized self && negb (amax_and_scale_synced self)
    && is_grad_enabled env = true ->
  float8_pre_forward env x self = (self, Raise (AssertionError not_synced_msg)).
Proof.
  intros He Hc. unfold float8_pre_forward, bind, get. by rewrite He, Hc.
Qed.

Lemma float8_pre_forward_disabled env x (self : Float8Linear.t) :
  enable_pre_and_post_forward self = false ->
  float8_pre_forward env x self = (self, Ok tt).
Proof. intros He. unfold float8_pre_forward, bind, get. by rewrite He. Qed.

Lemma float8_post_forward_enabled (self : Float8Linear.t) :
  enable_pre_and_post_forward self = true ->
  float8_post_forward self =
  (set_amax_and_scale_synced false (set_is_amax_initialized true self), Ok tt).
Proof. intros He. unfold float8_post_forward, bind, get. by rewrite He. Qed.

Lemma float8_post_forward_disabled (self : Float8Linear.t) :
  enable_pre_and_post_forward self = false ->
  float8_post_forward self = (self, Ok tt).
Proof. intros He. unfold float8_post_forward, bind, get. by rewrite He. Qed.

Lemma cast_x_to_float8_dynamic env x init (self : Float8Linear.t) :
  scaling_type_input self = Config.DYNAMIC ->
  cast_x_to_float8 env x init self =
  (self,
   Ok (cast_to_float8_e4m3_dynamic
         (if is_autocast_enabled env
          then tensor_to x (get_autocast_gpu_dtype env) else x)
         (linear_mm_config self) Omitted)).
Proof. intros Hs. unfold cast_x_to_float8, bind, get. by rewrite Hs. Qed.

Lemma cast_x_to_float8_delayed env x init (self : Float8Linear.t) :
  scaling_type_input self = Config.DELAYED ->
  is_ok (cast_x_to_float8 env x init self).2 = false.
Proof.
  intros Hs. unfold cast_x_to_float8. unfold bind at 1. unfold get at 1.
  rewrite Hs. cbn [bool_decide decide_rel].
  do 6 (apply bind_raises_r; intros).
  by apply bind_raises_l.
Qed.

Lemma cast_w_to_float8_not_precast w init (self : Float8Linear.t) :
  is_Float8Tensor (weight self) = false ->
  is_ok (cast_w_to_float8 w init self).2 = false.
Proof.
  intros Hw. unfold cast_w_to_float8. unfold bind at 1. unfold get at 1.
  rewrite Hw. destruct (scaling_type_weight self); cbn [bool_decide decide_rel].
  - by apply bind_raises_l.
  - do 6 (apply bind_raises_r; intros).
    by apply bind_raises_l.
Qed.

Lemma cast_y_to_float8_in_bw_state y (self : Float8Linear.t) :
  (cast_y_to_float8_in_bw y self).1 = self.
Proof.
  unfold cast_y_to_float8_in_bw, bind, get, getattr_buffer.
  destruct (scaling_type_grad_output self);
    repeat (case_bool_decide; try done).
  by repeat (destruct (_ !! _); cbn; [|done]).
Qed.

(** Whether [cast_y_to_float8_in_bw] returns normally depends on the
    scaling type of grad_output and on the buffers alone. *)
Lemma cast_y_to_float8_in_bw_ok y y' (self self' : Float8Linear.t) :
  scaling_type_grad_output self' = scaling_type_grad_output self ->
  _buffers self' = _buffers self ->
  is_ok (cast_y_to_float8_in_bw y self).2 = true ->
  is_ok (cast_y_to_float8_in_bw y' self').2 = true.
Proof.
  intros Hs Hb.
  unfold cast_y_to_float8_in_bw, bind, get, getattr_buffer.
  cbv beta iota. rewrite Hs.
  destruct (scaling_type_grad_output self);
    repeat (case_bool_decide; try done).
  cbv beta. rewrite Hb.
  by repeat (destruct (_buffers self !! _); cbn; rewrite ?Hb; [|done]).
Qed.

(** What a forward pass that returned normally has done, for a layer that
    has delayed scaling on some role and runs the pre and post hooks. *)
Lemma forward_ok_inv env x (self self1 : Float8Linear.t) y1 :
  has_any_delayed_scaling self = true ->
  enable_pre_and_post_forward self = true ->
  forward env x self = (self1, Ok y1) ->
  let self0 := set_last_seen_input_dtype (Some (tensor_dtype x)) self in
  let x_fp8 :=
    cast_to_float8_e4m3_dynamic
      (if is_autocast_enabled env
       then tensor_to x (get_autocast_gpu_dtype env) else x)
      (linear_mm_config self) Omitted in
  is_amax_initialized self && negb (amax_and_scale_synced self)
    && is_grad_enabled env = false
  /\ scaling_type_input self = Config.DYNAMIC
  /\ is_Float8Tensor (weight self) = true
  /\ (exists w_fp8_t y,
        tensor_t (weight self) = Ok w_fp8_t
        /\ torch_matmul x_fp8 w_fp8_t = Ok y
        /\ is_ok (cast_y_to_float8_in_bw y self0).2 = true)
  /\ self1 =
     set_amax_and_scale_synced false (set_is_amax_initialized true self0).
Proof.
  intros Hany Hen Hfw self0 x_fp8.
  unfold forward in Hfw.
  apply bind_ok_inv in Hfw as (s & a & [= <- <-] & Hfw).
  rewrite Hany in Hfw.
  apply bind_ok_inv in Hfw as (s & [] & Hpre & Hfw).
  destruct (is_amax_initialized self && negb (amax_and_scale_synced self)
            && is_grad_enabled env) eqn:Hcond.
  { by rewrite float8_pre_forward_not_synced in Hpre. }
  rewrite float8_pre_forward_pass in Hpre by done.
  injection Hpre as <-. fold self0 in Hfw.
  apply bind_ok_inv in Hfw as (s & a & [= <- <-] & Hfw).
  apply bind_ok_inv in Hfw as (s & xr & Hx & Hfw).
  destruct (scaling_type_input self) eqn:Hsx; last first.
  { pose proof (cast_x_to_float8_delayed env x
                  (is_amax_initialized self0) self0 Hsx) as Hno.
    by rewrite Hx in Hno. }
  rewrite (cast_x_to_float8_dynamic env x _ self0 Hsx) in Hx.
  injection Hx as <- <-.
  apply bind_ok_inv in Hfw as (s & a & [= <- <-] & Hfw).
  apply bind_ok_inv in Hfw as (s & wr & Hw & Hfw).
  destruct (is_Float8Tensor (weight self)) eqn:Hwf; last first.
  { pose proof (cast_w_to_float8_not_precast (weight self0)
                  (is_amax_initialized self0) self0 Hwf) as Hno.
    by rewrite Hw in Hno. }
  destruct (weight self) as [| f | |] eqn:Hweight; try discriminate.
  destruct (cast_w_to_float8_precast self0 (weight self0)
              (is_amax_initialized self0) f Hweight) as [Hcw _].
  rewrite Hcw in Hw. injection Hw as <- <-.
  apply bind_ok_inv in Hfw as (s & wt & Hwt & Hfw).
  unfold lift_result in Hwt. injection Hwt as <- Hwt.
  apply bind_ok_inv in Hfw as (s & y & Hy & Hfw).
  unfold lift_result in Hy. injection Hy as <- Hy.
  apply bind_ok_inv in Hfw as (s & o & Hcy & Hfw).
  pose proof (cast_y_to_float8_in_bw_state y self0) as Hst.
  rewrite Hcy in Hst. cbn in Hst. subst s.
  apply bind_ok_inv in Hfw as (s & a & [= <- <-] & Hfw).
  cbn [has_any_delayed_scaling set_last_seen_input_dtype self0] in Hfw.
  rewrite Hany in Hfw.
  apply bind_ok_inv in Hfw as (s & [] & Hpost & Hfw).
  rewrite float8_post_forward_enabled in Hpost by done.
  injection Hpost as <-. injection Hfw as <- _.
  split_and!; try done.
  exists wt, y. split_and!; try done. by rewrite Hcy.
Qed.

(** The converse: when the check of the pre hook passes, the input is
    scaled dynamically, the weight is already a [Float8Tensor] and the
    transpose, the matmul and the grad_output wrapper return normally, the
    forward pass returns normally. *)
Lemma forward_ok_intro env x (self : Float8Linear.t) w_fp8_t y :
  has_any_delayed_scaling self = true ->
  enable_pre_and_post_forward self = true ->
  let self0 := set_last_seen_input_dtype (Some (tensor_dtype x)) self in
  let x_fp8 :=
    cast_to_float8_e4m3_dynamic
      (if is_autocast_enabled env
       then tensor_to x (get_autocast_gpu_dtype env) else x)
      (linear_mm_config self) Omitted in
  is_amax_initialized self && negb (amax_and_scale_synced self)
    && is_grad_enabled env = false ->
  scaling_type_input self = Config.DYNAMIC ->
  is_Float8Tensor (weight self) = true ->
  tensor_t (weight self) = Ok w_fp8_t ->
  torch_matmul x_fp8 w_fp8_t = Ok y ->
  is_ok (cast_y_to_float8_in_bw y self0).2 = true ->
  exists y1,
    forward env x self =
    (set_amax_and_scale_synced false (set_is_amax_initialized true self0),
     Ok y1).
Proof.
  intros Hany Hen self0 x_fp8 Hcond Hsx Hwf Hwt Hy Hcy.
  destruct (weight self) as [| f | |] eqn:Hweight; try discriminate.
  destruct (cast_y_to_float8_in_bw y self0) as [s [o|e]] eqn:Hcast;
    [|discriminate].
  pose proof (cast_y_to_float8_in_bw_state y self0) as Hst.
  rewrite Hcast in Hst. cbn in Hst. subst s.
  eexists. unfold forward.
  rewrite (bind_ok _ _ self self self) by done. rewrite Hany.
  erewrite bind_ok by (by apply float8_pre_forward_pass).
  fold self0. rewrite (bind_ok _ _ self0 self0 self0) by done.
  erewrite bind_ok by (by apply cast_x_to_float8_dynamic).
  rewrite (bind_ok _ _ self0 self0 self0) by done.
  erewrite bind_ok
    by (by apply (cast_w_to_float8_precast self0 _ _ f Hweight)).
  erewrite bind_ok by (unfold lift_result; by rewrite Hwt).
  erewrite bind_ok by (unfold lift_result; f_equal; exact Hy).
  erewrite bind_ok by exact Hcast.
  rewrite (bind_ok _ _ self0 self0 self0) by done.
  cbn [has_any_delayed_scaling set_last_seen_input_dtype self0].
  rewrite Hany.
  erewrite bind_ok by (by apply float8_post_forward_enabled).
  reflexivity.
Qed.

(** C2, as the code has it: for a layer with delayed scaling on some role
    and with [enable_pre_and_post_forward] set, a forward pass that returns
    normally leaves [is_amax_initialized] true and [amax_and_scale_synced]
    false; the next forward pass under gradient tracking then raises the
    assertion error that names [sync_float8_amax_and_scale_history] and
    changes nothing; and once the synced flag is set again, the forward pass
    on the same input returns normally and leaves the flags as before. *)
Theorem forward_requires_sync env x (self self1 : Float8Linear.t) y1 :
  has_any_delayed_scaling self = true ->
  enable_pre_and_post_forward self = true ->
  forward env x self = (self1, Ok y1) ->
  is_amax_initialized self1 = true
  /\ amax_and_scale_synced self1 = false
  /\ (forall env' x',
        is_grad_enabled env' = true ->
        forward env' x' self1 =
        (self1,
         Raise (AssertionError
           "amaxes and scales not synced, please call `sync_float8_amax_and_scale_history` before forward")))
  /\ (exists self2 y2,
        forward env x (set_amax_and_scale_synced true self1) = (self2, Ok y2)
        /\ is_amax_initialized self2 = true
        /\ amax_and_scale_synced self2 = false).
Proof.
  intros Hany Hen Hfw.
  destruct (forward_ok_inv env x self self1 y1 Hany Hen Hfw)
    as (Hcond & Hsx & Hwf & (wt & y & Hwt & Hy & Hcy) & ->).
  split_and!; [done|done| |].
  - intros env' x' Hgrad.
    match goal with |- forward _ _ ?s = _ => set (s1 := s) end.
    unfold forward. rewrite (bind_ok get _ s1 s1 s1) by done.
    change (has_any_delayed_scaling s1) with (has_any_delayed_scaling self).
    rewrite Hany.
    apply bind_raise. apply float8_pre_forward_not_synced; [done|].
    cbn. by rewrite Hgrad.
  - match goal with |- context [forward env x ?s] => set (self' := s) end.
    destruct (forward_ok_intro env x self' wt y) as [y2 Hfw2];
      try done.
    + eapply cast_y_to_float8_in_bw_ok; [| |exact Hcy]; done.
    + eexists _, y2. split; [exact Hfw2|done].
Qed.

End ForwardSequencing.

(** * The statements on concrete inputs *)

Lemma choose_scaled_mm_config_by_roles_witness :
  choose_scaled_mm_config (Some INPUT) LinearMMConfig_default
    (Some INPUT) LinearMMConfig_default =
  Raise (AssertionError
    "unexpected a_role GemmInputRole.INPUT and b_role GemmInputRole.INPUT")
  /\ choose_scaled_mm_config (Some INPUT) LinearMMConfig_default
       (Some WEIGHT) LinearMMConfig_default =
     Ok (mkScaledMMConfig false true false false).
Proof.
  pose proof choose_scaled_mm_config_by_roles as (Ho & _ & _ & Hu).
  split.
  - apply Hu. vm_compute. intros Hin.
    repeat (apply elem_of_cons in Hin as [Hin|Hin]; [discriminate|]).
    by apply elem_of_nil in Hin.
  - rewrite Ho. reflexivity.
Defined.

Lemma choose_scaled_mm_config_mismatch_fails_witness :
  (exists msg,
     choose_scaled_mm_config (Some INPUT) LinearMMConfig_default
       (Some WEIGHT) Toy.slow_accum = Raise (AssertionError msg))
  /\ choose_scaled_mm_config (Some GRAD_OUTPUT) LinearMMConfig_default
       (Some INPUT) Toy.slow_accum = Ok ScaledMMConfig_default.
Proof.
  split.
  - apply (choose_scaled_mm_config_mismatch_fails (T := Toy.torch)
             (Toy.tagged LinearMMConfig_default INPUT)
             (Toy.tagged Toy.slow_accum WEIGHT) INPUT WEIGHT output
             eq_refl eq_refl gemm_output).
    vm_compute. discriminate.
  - apply (choose_scaled_mm_config_mismatch_fails (T := Toy.torch)
             (Toy.tagged LinearMMConfig_default GRAD_OUTPUT)
             (Toy.tagged Toy.slow_accum INPUT) GRAD_OUTPUT INPUT grad_weight
             eq_refl eq_refl gemm_grad_weight).
    reflexivity.
Defined.

Lemma Float8Tensor_scale_single_element_witness :
  Float8Tensor_new (T := Toy.torch) (Toy.vec [448; -448]%Z)
    (Toy.vec [2; 3]%Z) float32 None Omitted =
  Raise (AssertionError
    "Scale should contain a single value, but got: 2 elements")
  /\ numel (_scale (Toy.tagged LinearMMConfig_default INPUT)) = 1.
Proof.
  pose proof (Float8Tensor_scale_single_element (T := Toy.torch))
    as (Hnot & Hnew & _).
  split.
  - apply Hnot. vm_compute. lia.
  - apply (Hnew (Dense float8_e4m3fn [2] [1] [448; -448]%Z)
             (Dense float32 [] [] [448%Z]) float32 None Omitted).
    reflexivity.
Defined.

Lemma ToFloat8ConstrFunc_forward_backward_witness :
  ToFloat8ConstrFunc_forward (T := Toy.torch) (Toy.vec [1; -3; 500]%Z)
    (Dense float32 [] [] [2%Z]) Omitted Omitted Omitted =
  Ok (Float8
        (mkFloat8Tensor (Dense float8_e4m3fn [3] [1] [2; -6; 448]%Z)
           (Dense float32 [] [] [2%Z]) float32 LinearMMConfig_default
           (Some INPUT))).
Proof.
  apply (proj1 (ToFloat8ConstrFunc_forward_backward (T := Toy.torch)
                  (Toy.vec [1; -3; 500]%Z) (Dense float32 [] [] [2%Z])
                  Omitted Omitted Omitted));
    reflexivity.
Defined.

Lemma init_buffer_defaults_witness :
  Float8Linear._buffers (Toy.layer true true) !! "fp8_amax_grad_output"
    = Some (Dense float32 [1] [1] [57344%Z])
  /\ Float8Linear._buffers (Toy.layer true true) !! "fp8_amax_input"
    = Some (Dense float32 [1] [1] [448%Z])
  /\ Float8Linear._buffers (Toy.layer true true) !! "fp8_amax_weight"
    = Some (Dense float32 [1] [1] [448%Z])
  /\ Float8Linear._buffers (Toy.layer true true) !! "fp8_scale_grad_output"
    = Some (Dense float32 [1] [1] [1%Z]).
Proof.
  destruct (init_buffer_defaults (T := Toy.torch) Toy.fp8_weight None
              (Toy.cfg true true))
    as ((_ & _ & Hsg) & He4 & He5).
  - right. right. reflexivity.
  - destruct (He4 eq_refl) as [Hai Haw].
    split_and!; [exact (He5 eq_refl)|exact Hai|exact Haw|exact Hsg].
Defined.

(** C9 as stated fails when the float8 formats are the fnuz flavors: on a
    layer with delayed scaling on every role, the input and the weight are
    cast to [torch.float8_e4m3fnuz], whose largest finite value is 240, and
    their amax buffers are initialized to 448, the largest finite value of
    [torch.float8_e4m3fn]. *)
Lemma init_buffer_defaults_fnuz :
  let self :=
    Float8Linear.init (T := Toy.torch_fnuz)
      (Dense float32 [2; 2] [2; 1] [1; 0; 0; 1]%Z) None
      (Toy.cfg_delayed 2 false) in
  Float8Linear.has_any_delayed_scaling self = true
  /\ e4m3_dtype (Torch := Toy.torch_fnuz) = float8_e4m3fnuz
  /\ finfo_max (Torch := Toy.torch_fnuz) float8_e4m3fnuz = 240%Z
  /\ Float8Linear._buffers self !! "fp8_amax_input"
     = Some (Dense float32 [1] [1] [448%Z])
  /\ Float8Linear._buffers self !! "fp8_amax_weight"
     = Some (Dense float32 [1] [1] [448%Z])
  /\ Float8Linear._buffers self !! "fp8_amax_input"
     <> Some (Dense float32 [1] [1]
               [finfo_max (Torch := Toy.torch_fnuz)
                  (e4m3_dtype (Torch := Toy.torch_fnuz))])
  /\ Float8Linear._buffers self !! "fp8_amax_weight"
     <> Some (Dense float32 [1] [1]
               [finfo_max (Torch := Toy.torch_fnuz)
                  (e4m3_dtype (Torch := Toy.torch_fnuz))]).
Proof. vm_compute. split_and!; done. Qed.

Lemma cast_w_to_float8_precast_witness :
  Float8Linear.cast_w_to_float8 (C := Toy.casts) Toy.fp8_weight true
    (Toy.layer false true) = (Toy.layer false true, Ok Toy.fp8_weight).
Proof.
  eapply (proj1 (cast_w_to_float8_precast (C := Toy.casts)
                   (Toy.layer false true) Toy.fp8_weight true _ eq_refl)).
Defined.

Lemma NoopFwToFloat8E5M2Bw_backward_raises_witness :
  NoopFwToFloat8E5M2Bw.backward (C := Toy.casts) (Toy.grad_ctx true)
    (Toy.vec [3; -7]%Z) (Float8Linear._buffers (Toy.layer false true)) =
  (<["fp8_amax_grad_output" := Dense float32 [1] [1] [7%Z]]>
     (Float8Linear._buffers (Toy.layer false true)),
   Raise (AttributeError "DL_DY")).
Proof.
  pose proof (NoopFwToFloat8E5M2Bw_backward_raises (C := Toy.casts))
    as (_ & _ & _ & Hbw).
  apply (Hbw (Toy.grad_ctx true) (Toy.vec [3; -7]%Z) _
           "fp8_amax_grad_output" "fp8_amax_history_grad_output"
           "fp8_scale_grad_output" (Dense float32 [1] [1] [57344%Z]));
    reflexivity.
Defined.

(** With the captured flag false, the backward pass initializes the three
    buffers from the gradient before it raises. *)
Example backward_uninitialized_on_buffers :
  let r := NoopFwToFloat8E5M2Bw.backward (C := Toy.casts)
             (Toy.grad_ctx false) (Toy.vec [3; -7]%Z)
             (Float8Linear._buffers (Toy.layer true true)) in
  r.2 = Raise (AttributeError "DL_DY")
  /\ r.1 !! "fp8_amax_grad_output" = Some (Dense float32 [1] [1] [7%Z])
  /\ r.1 !! "fp8_amax_history_grad_output"
     = Some (Dense float32 [2] [1] [7; 0]%Z)
  /\ r.1 !! "fp8_scale_grad_output" = Some (Dense float32 [1] [1] [8192%Z]).
Proof. vm_compute. done. Qed.

Lemma forward_requires_sync_witness :
  Float8Linear.is_amax_initialized
    (Float8Linear.forward (C := Toy.casts) Toy.env (Toy.vec [1; 2]%Z)
       (Toy.layer true true)).1 = true
  /\ Float8Linear.amax_and_scale_synced
       (Float8Linear.forward (C := Toy.casts) Toy.env (Toy.vec [1; 2]%Z)
          (Toy.layer true true)).1 = false
  /\ (Float8Linear.forward (C := Toy.casts) Toy.env (Toy.vec [5]%Z)
        (Float8Linear.forward (C := Toy.casts) Toy.env (Toy.vec [1; 2]%Z)
           (Toy.layer true true)).1).2 =
     Raise (AssertionError Float8Linear.not_synced_msg).
Proof.
  destruct (forward_ok_intro (C := Toy.casts) Toy.env (Toy.vec [1; 2]%Z)
              (Toy.layer true true) Toy.fp8_weight
              (Dense float32 [1] [1] [448%Z]))
    as [y1 Hfw]; try reflexivity.
  destruct (forward_requires_sync (C := Toy.casts) Toy.env
              (Toy.vec [1; 2]%Z) (Toy.layer true true) _ y1
              eq_refl eq_refl Hfw) as (Hinit & Hsync & Hraise & _).
  rewrite Hfw. cbn [fst].
  split_and!; [exact Hinit|exact Hsync|].
  rewrite (Hraise Toy.env (Toy.vec [5]%Z) eq_refl). reflexivity.
Defined.

(** C2 as stated fails when the hooks are switched off: on a layer with
    delayed scaling for grad_output and [enable_pre_and_post_forward] false,
    two forward passes in a row under gradient tracking both return
    normally, and the synced flag is still true after the first. *)
Lemma forward_twice_without_hooks :
  Float8Linear.has_any_delayed_scaling (Toy.layer false false) = true
  /\ is_grad_enabled Toy.env = true
  /\ is_ok (Float8Linear.forward (C := Toy.casts) Toy.env (Toy.vec [1; 2]%Z)
              (Toy.layer false false)).2 = true
  /\ Float8Linear.amax_and_scale_synced
       (Float8Linear.forward (C := Toy.casts) Toy.env (Toy.vec [1; 2]%Z)
          (Toy.layer false false)).1 = true
  /\ is_ok (Float8Linear.forward (C := Toy.casts) Toy.env (Toy.vec [1; 2]%Z)
              (Float8Linear.forward (C := Toy.casts) Toy.env
                 (Toy.vec [1; 2]%Z) (Toy.layer false false)).1).2 = true.
Proof. vm_compute. done. Qed.

(** * Further properties of float8_tensor.py *)

Section Float8TensorFurther.
Context {T : Torch}.

(** Flattening a [Float8Tensor] and unflattening the two inner tensors
    with the metadata gives the tensor back. *)
Theorem tensor_unflatten_flatten (f : float8tensor) :
  numel (_scale f) = 1 ->
  (tensor_flatten f).1 = ["_data"; "_scale"]
  /\ tensor_unflatten
       (<["_data" := _data f]> (<["_scale" := _scale f]> ∅))
       (tensor_flatten f).2 = Ok f.
Proof.
  intros Hn. split; [done|].
  unfold tensor_unflatten.
  rewrite bool_decide_eq_true_2.
  2:{ rewrite map_size_insert_None by by simplify_map_eq.
      by rewrite map_size_insert_None, map_size_empty. }
  rewrite lookup_insert_eq, lookup_insert_ne, lookup_insert_eq by done.
  cbn. rewrite Float8Tensor_new_single by done.
  by destruct f.
Qed.

(** [__tensor_unflatten__] rejects a dictionary that does not have exactly
    two entries, and one with two entries that lacks a key. *)
Theorem tensor_unflatten_errors
    (inner_tensors : gmap string tensor) (metadata : Float8Metadata) :
  (size inner_tensors <> 2 ->
   tensor_unflatten inner_tensors metadata = Raise (AssertionError ""))
  /\ (size inner_tensors = 2 -> inner_tensors !! "_data" = None ->
      tensor_unflatten inner_tensors metadata = Raise (KeyError "_data"))
  /\ (size inner_tensors = 2 -> is_Some (inner_tensors !! "_data") ->
      inner_tensors !! "_scale" = None ->
      tensor_unflatten inner_tensors metadata = Raise (KeyError "_scale"))
  /\ (forall d s,
      size inner_tensors = 2 -> inner_tensors !! "_data" = Some d ->
      inner_tensors !! "_scale" = Some s -> numel s <> 1 ->
      tensor_unflatten inner_tensors metadata =
      Raise (AssertionError (scale_numel_msg (numel s)))).
Proof.
  unfold tensor_unflatten. split_and!.
  - intros Hsz. by rewrite bool_decide_eq_false_2.
  - intros Hsz Hd. by rewrite bool_decide_eq_true_2, Hd.
  - intros Hsz [d Hd] Hs. by rewrite bool_decide_eq_true_2, Hd, Hs.
  - intros d s Hsz Hd Hs Hn.
    rewrite bool_decide_eq_true_2, Hd, Hs by done.
    by apply Float8Tensor_new_not_single.
Qed.

(** Whatever [hp_tensor_and_scale_to_float8] returns is recognised by
    [tensor_already_casted_to_fp8], also when it is a [DTensor] around the
    [Float8Tensor]. *)
Theorem cast_result_already_casted t scale float8_dtype cfg role r :
  hp_tensor_and_scale_to_float8 t scale float8_dtype cfg role = Ok r ->
  tensor_already_casted_to_fp8 r = true.
Proof.
  rewrite hp_tensor_and_scale_to_float8_forward. intros Hr.
  apply ToFloat8ConstrFunc_forward_inv in Hr as (f & Hf & _).
  destruct r as [| |l ? ? ? ?|]; try discriminate; [done|].
  by destruct l.
Qed.

(** The tensor a cast returns reports the dtype of the high precision
    input, and the size and stride of the float8 data. *)
Theorem cast_result_dtype_and_size t scale float8_dtype cfg role r :
  hp_tensor_and_scale_to_float8 t scale float8_dtype cfg role = Ok r ->
  let bits := to_fp8_saturated (torch_mul t scale)
                (kwarg_get e4m3_dtype float8_dtype) in
  tensor_dtype r = tensor_dtype t
  /\ tensor_size r = tensor_size bits
  /\ tensor_stride r = tensor_stride bits.
Proof.
  rewrite hp_tensor_and_scale_to_float8_forward.
  unfold ToFloat8ConstrFunc_forward. cbv zeta.
  destruct (to_fp8_saturated _ _) as [dt sz st el|f0|l m p sz st|e] eqn:Hbits.
  1,2,4: destruct (Float8Tensor_new _ _ _ _ _) as [f|] eqn:Hnew;
         [|discriminate]; intros [= <-];
         by apply Float8Tensor_new_inv in Hnew as [_ ->].
  destruct scale as [| |ls ? ? ? ?|]; try discriminate.
  destruct (Float8Tensor_new _ _ _ _ _) as [f|] eqn:Hnew; [|discriminate].
  intros [= <-]. by apply Float8Tensor_new_inv in Hnew as [_ ->].
Qed.

(** The order of the operands matters: when [choose_scaled_mm_config]
    returns a config for a pair of operands, it raises for the same operands
    in the other order. *)
Theorem choose_scaled_mm_config_swapped a_role a b_role b c :
  choose_scaled_mm_config a_role a b_role b = Ok c ->
  choose_scaled_mm_config b_role b a_role a =
  Raise (AssertionError (unexpected_roles_msg b_role a_role)).
Proof.
  intros Hok. apply choose_unexpected.
  destruct a_role as [[]|], b_role as [[]|]; try discriminate;
    unfold gemm_role_pairs; intros Hin;
    repeat (apply elem_of_cons in Hin as [Hin|Hin]; [discriminate|]);
    by apply elem_of_nil in Hin.
Qed.

(** Two tensors cast with the same [linear_mm_config] and with the roles of
    one of the three gemms resolve to the entry of that config for the
    gemm. *)
Theorem cast_pair_resolves
    t1 s1 d1 t2 s2 d2 (cfg : option LinearMMConfig) ra rb sel r1 r2 f1 f2 :
  gemm_of_roles ra rb sel ->
  hp_tensor_and_scale_to_float8 t1 s1 d1 (Passed cfg) (Passed (Some ra))
    = Ok r1 ->
  hp_tensor_and_scale_to_float8 t2 s2 d2 (Passed cfg) (Passed (Some rb))
    = Ok r2 ->
  float8_of r1 = Some f1 ->
  float8_of r2 = Some f2 ->
  choose_scaled_mm_config
    (_gemm_input_role f1) (_linear_mm_config f1)
    (_gemm_input_role f2) (_linear_mm_config f2) =
  Ok (sel (match cfg with Some c => c | None => LinearMMConfig_default end)).
Proof.
  intros Hsel H1 H2 Hf1 Hf2.
  rewrite hp_tensor_and_scale_to_float8_forward in H1, H2.
  apply ToFloat8ConstrFunc_forward_inv in H1 as (g1 & Hg1 & _ & ->).
  apply ToFloat8ConstrFunc_forward_inv in H2 as (g2 & Hg2 & _ & ->).
  rewrite Hf1 in Hg1. rewrite Hf2 in Hg2.
  injection Hg1 as ->. injection Hg2 as ->. cbn.
  destruct Hsel;
    rewrite ?choose_output, ?choose_grad_input, ?choose_grad_weight;
    by rewrite bool_decide_eq_true_2.
Qed.

End Float8TensorFurther.

(** * Further properties of float8_linear.py *)

Section InitializationFurther.
Context {T : Torch}.

(** On a state that is not initialized, with three distinct buffers and a
    history of one dimension that is not empty, the initialization
    transition writes the amax of the tensor to the current amax and to the
    head of the history, keeps the rest of the history, writes the scale
    derived from the new history to the scale buffer, and touches no other
    buffer. *)
Theorem maybe_initialize_writes
    (x : tensor) (cur_amax amax_history scale : ref) (scale_fn_name : string)
    (float8_dtype : Dtype) (reduce_amax : bool) (bufs : gmap string tensor)
    (ta ts : tensor) (hdt : Dtype) (n : nat) (hst : list nat)
    (h0 : scalar) (hrest : list scalar) (new_scale : scalar) :
  let new_amax := tensor_to_amax x (Passed reduce_amax) in
  let after :=
    _maybe_initialize_amaxes_scales_for_float8_cast x cur_amax amax_history
      scale scale_fn_name float8_dtype false reduce_amax bufs in
  cur_amax <> amax_history -> cur_amax <> scale -> amax_history <> scale ->
  bufs !! cur_amax = Some ta ->
  bufs !! amax_history = Some (Dense hdt [S n] hst (h0 :: hrest)) ->
  bufs !! scale = Some ts ->
  amax_history_to_scale (Dense hdt [S n] hst (new_amax :: hrest))
    float8_dtype (tensor_dtype x) scale_fn_name = Ok new_scale ->
  after.2 = Ok tt
  /\ after.1 !! cur_amax = Some (fill_ ta new_amax)
  /\ after.1 !! amax_history = Some (Dense hdt [S n] hst (new_amax :: hrest))
  /\ after.1 !! scale = Some (copy_ ts new_scale)
  /\ (forall r, r <> cur_amax -> r <> amax_history -> r <> scale ->
      after.1 !! r = bufs !! r).
Proof.
  intros new_amax after Hah Has Hhs Ha Hh Hs Hscale. subst after.
  erewrite (maybe_initialize_uninitialized x cur_amax amax_history scale
              scale_fn_name float8_dtype reduce_amax bufs ta
              (Dense hdt [S n] hst (h0 :: hrest)) _ ts new_scale).
  - cbn [fst snd]. split_and!; [done|..].
    + by rewrite !lookup_insert_ne, lookup_insert_eq by done.
    + by rewrite lookup_insert_ne, lookup_insert_eq by done.
    + by rewrite lookup_insert_eq.
    + intros r ? ? ?. by rewrite !lookup_insert_ne by done.
  - done.
  - by rewrite lookup_insert_ne.
  - reflexivity.
  - exact Hscale.
  - by rewrite !lookup_insert_ne.
Qed.

(** With a history that has no entry along its first dimension, the
    transition raises [IndexError] at [amax_history[0] = new_amax], after it
    has overwritten the current amax. *)
Theorem maybe_initialize_empty_history
    (x : tensor) (cur_amax amax_history scale : ref) (scale_fn_name : string)
    (float8_dtype : Dtype) (reduce_amax : bool) (bufs : gmap string tensor)
    (ta : tensor) (hdt : Dtype) (sz hst : list nat) (hel : list scalar) :
  cur_amax <> amax_history ->
  bufs !! cur_amax = Some ta ->
  bufs !! amax_history = Some (Dense hdt (0 :: sz) hst hel) ->
  exists msg,
    _maybe_initialize_amaxes_scales_for_float8_cast x cur_amax amax_history
      scale scale_fn_name float8_dtype false reduce_amax bufs =
    (<[cur_amax := fill_ ta (tensor_to_amax x (Passed reduce_amax))]> bufs,
     Raise (IndexError msg)).
Proof.
  intros Hne Ha Hh. eexists.
  unfold _maybe_initialize_amaxes_scales_for_float8_cast.
  erewrite bind_ok by (by apply buf_fill__present).
  apply bind_raise.
  unfold buf_setitem0, bind, buf_get, lift_result.
  rewrite lookup_insert_ne, Hh by done. reflexivity.
Qed.

(** When the scale cannot be derived from the history, the transition
    raises the error of [amax_history_to_scale]; the current amax and the
    history are already written and the scale buffer is as it was. *)
Theorem maybe_initialize_scale_error
    (x : tensor) (cur_amax amax_history scale : ref) (scale_fn_name : string)
    (float8_dtype : Dtype) (reduce_amax : bool) (bufs : gmap string tensor)
    (ta th th' : tensor) (e : exn) :
  let new_amax := tensor_to_amax x (Passed reduce_amax) in
  let after :=
    _maybe_initialize_amaxes_scales_for_float8_cast x cur_amax amax_history
      scale scale_fn_name float8_dtype false reduce_amax bufs in
  cur_amax <> amax_history -> cur_amax <> scale -> amax_history <> scale ->
  bufs !! cur_amax = Some ta ->
  bufs !! amax_history = Some th ->
  setitem0 th new_amax = Ok th' ->
  amax_history_to_scale th' float8_dtype (tensor_dtype x) scale_fn_name
    = Raise e ->
  after.2 = Raise e
  /\ after.1 !! cur_amax = Some (fill_ ta new_amax)
  /\ after.1 !! amax_history = Some th'
  /\ after.1 !! scale = bufs !! scale.
Proof.
  intros new_amax after Hah Has Hhs Ha Hh Hset Hscale. subst after.
  unfold _maybe_initialize_amaxes_scales_for_float8_cast. fold new_amax.
  erewrite bind_ok by (by apply buf_fill__present).
  erewrite bind_ok.
  2:{ unfold buf_setitem0, bind, buf_get, lift_result, modify.
      by rewrite lookup_insert_ne, Hh, Hset. }
  erewrite bind_ok.
  2:{ unfold buf_get. by rewrite lookup_insert_eq. }
  erewrite bind_raise by (unfold lift_result; by rewrite Hscale).
  cbn [fst snd]. split_and!; [done|..].
  - by rewrite lookup_insert_ne, lookup_insert_eq.
  - by rewrite lookup_insert_eq.
  - by rewrite !lookup_insert_ne.
Qed.

End InitializationFurther.

Section BuffersFurther.
Context {T : Torch} {C : Float8TensorCasts} {I : Float8LinearImports}.
Import Float8Linear.

Lemma nine_names_union (s : gset string) :
  {["fp8_scale_grad_output"]} ∪ ({["fp8_amax_history_grad_output"]}
  ∪ ({["fp8_amax_grad_output"]} ∪ ({["fp8_scale_weight"]}
  ∪ ({["fp8_amax_history_weight"]} ∪ ({["fp8_amax_weight"]}
  ∪ ({["fp8_scale_input"]} ∪ ({["fp8_amax_history_input"]}
  ∪ ({["fp8_amax_input"]} ∪ s))))))))
  = list_to_set buffer_names ∪ s.
Proof.
  apply set_eq. intros k. unfold buffer_names. cbn.
  rewrite !elem_of_union, !elem_of_singleton, elem_of_empty.
  split; intros Hk; repeat (destruct Hk as [Hk|Hk]; [auto 20|]);
    auto 20; try done.
Qed.

(** The whole layer after [create_buffers], for delayed scaling on some
    role. *)
Lemma create_buffers_state (self : Float8Linear.t) :
  has_any_delayed_scaling self = true ->
  let history_len :=
    Config.history_len (Config.delayed_scaling_config (config self)) in
  create_buffers self =
  (set_always_float32_buffers
     ({["fp8_scale_grad_output"]} ∪ ({["fp8_amax_history_grad_output"]}
      ∪ ({["fp8_amax_grad_output"]} ∪ ({["fp8_scale_weight"]}
      ∪ ({["fp8_amax_history_weight"]} ∪ ({["fp8_amax_weight"]}
      ∪ ({["fp8_scale_input"]} ∪ ({["fp8_amax_history_input"]}
      ∪ ({["fp8_amax_input"]} ∪ always_float32_buffers self)))))))))
     (set_buffers
        (<["fp8_scale_grad_output" := torch_tensor1 fp_one]>
        (<["fp8_amax_history_grad_output" := torch_zeros history_len]>
        (<["fp8_amax_grad_output" := torch_tensor1 (finfo_max float8_e5m2)]>
        (<["fp8_scale_weight" := torch_tensor1 fp_one]>
        (<["fp8_amax_history_weight" := torch_zeros history_len]>
        (<["fp8_amax_weight" := torch_tensor1 (finfo_max float8_e4m3fn)]>
        (<["fp8_scale_input" := torch_tensor1 fp_one]>
        (<["fp8_amax_history_input" := torch_zeros history_len]>
        (<["fp8_amax_input" := torch_tensor1 (finfo_max float8_e4m3fn)]>
           (_buffers self))))))))))
        self),
   Ok tt).
Proof.
  intros Hd. unfold create_buffers, bind, get. rewrite Hd. done.
Qed.

Lemma create_buffers_idempotent (self : Float8Linear.t) :
  create_buffers (create_buffers self).1 = ((create_buffers self).1, Ok tt).
Proof.
  destruct (has_any_delayed_scaling self) eqn:Hd.
  - rewrite (create_buffers_state self Hd). cbn [fst].
    match goal with |- create_buffers ?s = _ => set (s1 := s) end.
    rewrite (create_buffers_state s1 Hd). f_equal.
    subst s1. unfold set_always_float32_buffers, set_buffers. cbn.
    f_equal.
    + rewrite !nine_names_union.
      by rewrite (assoc_L (∪)), (idemp_L (∪)).
    + apply map_eq. intros k.
      destruct (decide (k ∈ buffer_names)) as [Hin|Hnot].
      * unfold buffer_names in Hin.
        repeat (apply elem_of_cons in Hin as [->|Hin];
                [by simplify_map_eq|]).
        by apply elem_of_nil in Hin.
      * rewrite !lookup_insert_ne; [done|..];
          intros <-; apply Hnot; compute_done.
  - rewrite (create_buffers_dynamic self Hd). cbn [fst].
    by apply create_buffers_dynamic.
Qed.

Lemma create_buffers_set_weight w (self : Float8Linear.t) :
  create_buffers (set_weight w self) =
  (set_weight w (create_buffers self).1, (create_buffers self).2).
Proof.
  unfold create_buffers, bind, get. cbn.
  by destruct (has_any_delayed_scaling self).
Qed.

Lemma create_buffers_set_bias b (self : Float8Linear.t) :
  create_buffers (set_bias b self) =
  (set_bias b (create_buffers self).1, (create_buffers self).2).
Proof.
  unfold create_buffers, bind, get. cbn.
  by destruct (has_any_delayed_scaling self).
Qed.

Lemma create_buffers_ok (self : Float8Linear.t) :
  (create_buffers self).2 = Ok tt.
Proof.
  unfold create_buffers, bind, get. cbn.
  by destruct (has_any_delayed_scaling self).
Qed.

(** [create_buffers], for a layer with delayed scaling on some role, sets
    each of the nine buffers to its initial contents whatever it held, with
    histories of [history_len] zeros, keeps every other buffer, adds the
    nine names to [always_float32_buffers], and changes nothing when it is
    run a second time. *)
Theorem create_buffers_resets (self : Float8Linear.t) :
  has_any_delayed_scaling self = true ->
  let history_len :=
    Config.history_len (Config.delayed_scaling_config (config self)) in
  let after := (create_buffers self).1 in
  (create_buffers self).2 = Ok tt
  /\ (forall name v,
      (name, v) ∈ default_buffers history_len ->
      _buffers after !! name = Some v)
  /\ (forall name,
      name ∉ buffer_names -> _buffers after !! name = _buffers self !! name)
  /\ always_float32_buffers after =
     list_to_set buffer_names ∪ always_float32_buffers self
  /\ create_buffers after = (after, Ok tt).
Proof.
  intros Hd history_len after. subst after.
  rewrite (create_buffers_state self Hd). cbn [fst snd].
  split_and!.
  - done.
  - intros name v Hin. unfold default_buffers in Hin. cbn.
    repeat (apply elem_of_cons in Hin as [[= -> ->]|Hin];
            [by simplify_map_eq|]).
    by apply elem_of_nil in Hin.
  - intros name Hnot. cbn. unfold buffer_names in Hnot.
    rewrite !lookup_insert_ne; [done|..];
      intros <-; apply Hnot; compute_done.
  - cbn. apply nine_names_union.
  - pose proof (create_buffers_idempotent self) as Hidem.
    by rewrite (create_buffers_state self Hd) in Hidem.
Qed.

(** A layer without delayed scaling gets no buffer: [__init__] leaves the
    store and [always_float32_buffers] empty; with delayed scaling on some
    role the registered buffers are exactly the nine names.  In both cases
    [always_float32_buffers] is the set of names of the store. *)
Theorem init_buffer_names (weight : tensor) (bias : option tensor)
    (cfg : Config.Float8LinearConfig) :
  let self := init weight bias cfg in
  always_float32_buffers self = dom (_buffers self)
  /\ (has_any_delayed_scaling self = false -> _buffers self = ∅)
  /\ (has_any_delayed_scaling self = true ->
      dom (_buffers self) = list_to_set buffer_names).
Proof.
  intros self. subst self. unfold init.
  match goal with |- context [create_buffers ?s] => set (s0 := s) end.
  destruct (has_any_delayed_scaling s0) eqn:Hd.
  - rewrite (create_buffers_state s0 Hd). cbn [fst].
    assert (has_any_delayed_scaling
              (set_always_float32_buffers
                 ({["fp8_scale_grad_output"]}
                  ∪ ({["fp8_amax_history_grad_output"]}
                  ∪ ({["fp8_amax_grad_output"]} ∪ ({["fp8_scale_weight"]}
                  ∪ ({["fp8_amax_history_weight"]} ∪ ({["fp8_amax_weight"]}
                  ∪ ({["fp8_scale_input"]} ∪ ({["fp8_amax_history_input"]}
                  ∪ ({["fp8_amax_input"]} ∪ always_float32_buffers s0)))))))))
                 (set_buffers
                    (<["fp8_scale_grad_output" := torch_tensor1 fp_one]>
                    (<["fp8_amax_history_grad_output" :=
                         torch_zeros
                           (Config.history_len
                              (Config.delayed_scaling_config (config s0)))]>
                    (<["fp8_amax_grad_output" :=
                         torch_tensor1 (finfo_max float8_e5m2)]>
                    (<["fp8_scale_weight" := torch_tensor1 fp_one]>
                    (<["fp8_amax_history_weight" :=
                         torch_zeros
                           (Config.history_len
                              (Config.delayed_scaling_config (config s0)))]>
                    (<["fp8_amax_weight" :=
                         torch_tensor1 (finfo_max float8_e4m3fn)]>
                    (<["fp8_scale_input" := torch_tensor1 fp_one]>
                    (<["fp8_amax_history_input" :=
                         torch_zeros
                           (Config.history_len
                              (Config.delayed_scaling_config (config s0)))]>
                    (<["fp8_amax_input" :=
                         torch_tensor1 (finfo_max float8_e4m3fn)]>
                       (_buffers s0))))))))))
                    s0)) = true) as Hd' by exact Hd.
    split_and!.
    + cbn. rewrite !dom_insert_L. subst s0. cbn. by rewrite dom_empty_L.
    + intros Hno. by rewrite Hno in Hd'.
    + intros _. cbn. rewrite !dom_insert_L. subst s0. cbn.
      rewrite dom_empty_L, nine_names_union. by rewrite (right_id_L ∅ (∪)).
  - rewrite (create_buffers_dynamic s0 Hd). cbn [fst].
    split_and!.
    + subst s0. cbn. by rewrite dom_empty_L.
    + done.
    + intros Hyes. by rewrite Hyes in Hd.
Qed.

Lemma convert_loop (l : list string) (self : Float8Linear.t) :
  NoDup l ->
  (forall k, k ∈ l -> is_Some (_buffers self !! k)) ->
  exists bufs',
    for_each l
      (fun key =>
         bind (getitem_buffer key) (fun b =>
         modify (fun self =>
                   set_buffers
                     (<[key := tensor_to b float32]> (_buffers self)) self)))
      self = (set_buffers bufs' self, Ok tt)
    /\ forall k,
         bufs' !! k =
         (fun b => if bool_decide (k ∈ l) then tensor_to b float32 else b)
           <$> _buffers self !! k.
Proof.
  intros Hnd. revert self.
  induction Hnd as [|a l Hnotin Hnd IH]; intros self Hall.
  - exists (_buffers self). split; [by destruct self|].
    intros k. by destruct (_buffers self !! k).
  - destruct (Hall a) as [b Hb]; [set_solver|].
    cbn [for_each].
    set (self1 := set_buffers (<[a := tensor_to b float32]> (_buffers self))
                    self).
    destruct (IH self1) as (bufs' & Hloop & Hlook).
    { intros k Hk. subst self1. cbn.
      destruct (decide (a = k)) as [->|Hne];
        [by rewrite lookup_insert_eq|].
      rewrite lookup_insert_ne by done. apply Hall. set_solver. }
    exists bufs'. split.
    + erewrite bind_ok.
      2:{ unfold bind, getitem_buffer, modify. rewrite Hb. reflexivity. }
      fold self1. rewrite Hloop. by destruct self.
    + intros k. rewrite Hlook. subst self1. cbn.
      destruct (decide (a = k)) as [->|Hne].
      * rewrite lookup_insert_eq, Hb. cbn.
        rewrite (bool_decide_eq_false_2 (k ∈ l)) by done.
        by rewrite bool_decide_eq_true_2 by set_solver.
      * rewrite lookup_insert_ne by done.
        destruct (_buffers self !! k); [|done]. cbn. f_equal.
        destruct (decide (k ∈ l)).
        -- by rewrite !bool_decide_eq_true_2 by set_solver.
        -- by rewrite !bool_decide_eq_false_2 by set_solver.
Qed.

(** [convert_amax_buffer_to_float32], when every name of
    [always_float32_buffers] is a buffer: it replaces each of these buffers
    by its conversion to float32, and leaves the other buffers and every
    other attribute of the layer as they were.  So does [_apply], on what
    [super()._apply] has left. *)
Theorem convert_amax_buffer_to_float32_spec (self : Float8Linear.t) :
  always_float32_buffers self ⊆ dom (_buffers self) ->
  exists bufs',
    convert_amax_buffer_to_float32 self = (set_buffers bufs' self, Ok tt)
    /\ (forall k,
          bufs' !! k =
          (fun b =>
             if bool_decide (k ∈ always_float32_buffers self)
             then tensor_to b float32 else b) <$> _buffers self !! k)
    /\ (forall super_apply self0,
          super_apply self0 = (self, Ok tt) ->
          _apply super_apply self0 = (set_buffers bufs' self, Ok tt)).
Proof.
  intros Hsub.
  destruct (convert_loop (elements (always_float32_buffers self)) self)
    as (bufs' & Hloop & Hlook).
  { apply NoDup_elements. }
  { intros k Hk. apply elem_of_dom. apply Hsub. by apply elem_of_elements. }
  assert (convert_amax_buffer_to_float32 self = (set_buffers bufs' self, Ok tt))
    as Hconv.
  { unfold convert_amax_buffer_to_float32.
    rewrite (bind_ok get _ self self self) by done. exact Hloop. }
  exists bufs'. split_and!.
  - exact Hconv.
  - intros k. rewrite Hlook. destruct (_buffers self !! k); [|done].
    cbn. f_equal.
    destruct (decide (k ∈ always_float32_buffers self)).
    + by rewrite !bool_decide_eq_true_2 by set_solver.
    + by rewrite !bool_decide_eq_false_2 by set_solver.
  - intros super_apply self0 Hsuper. unfold _apply.
    by rewrite (bind_ok _ _ self0 self tt Hsuper).
Qed.

End BuffersFurther.

Section ForwardFurther.
Context {T : Torch} {C : Float8TensorCasts} {I : Float8LinearImports}.
Import Float8Linear.

Lemma cast_y_to_float8_in_bw_delayed y (self : Float8Linear.t) o :
  scaling_type_grad_output self = Config.DELAYED ->
  (cast_y_to_float8_in_bw y self).2 = Ok o ->
  o = mkOutput y
        (Some (NoopFwToFloat8E5M2Bw.mkCtx
                 ("fp8_amax_grad_output", "fp8_amax_history_grad_output",
                  "fp8_scale_grad_output")
                 (Config.scale_fn_name
                    (Config.delayed_scaling_config (config self)))
                 (is_amax_initialized self) (linear_mm_config self))).
Proof.
  intros Hs. unfold cast_y_to_float8_in_bw, bind, get, getattr_buffer.
  cbv beta iota. rewrite Hs.
  rewrite bool_decide_eq_true_2 by done.
  repeat (destruct (_buffers self !! _); cbn; [|discriminate]).
  by intros [= <-].
Qed.

Lemma cast_y_to_float8_in_bw_dynamic y (self : Float8Linear.t) :
  scaling_type_grad_output self = Config.DYNAMIC ->
  cast_y_to_float8_in_bw y self =
  (self,
   Ok (mkOutput (cast_to_float8_e5m2_dynamic_bw y (linear_mm_config self))
         None)).
Proof.
  intros Hs. unfold cast_y_to_float8_in_bw, bind, get. by rewrite Hs.
Qed.

(** What any forward pass that returned normally has done. *)
Lemma forward_ok_inv_gen env x (self self1 : Float8Linear.t) y1 :
  forward env x self = (self1, Ok y1) ->
  let hooks :=
    has_any_delayed_scaling self && enable_pre_and_post_forward self in
  let self0 :=
    if hooks then set_last_seen_input_dtype (Some (tensor_dtype x)) self
    else self in
  let x_fp8 :=
    cast_to_float8_e4m3_dynamic
      (if is_autocast_enabled env
       then tensor_to x (get_autocast_gpu_dtype env) else x)
      (linear_mm_config self) Omitted in
  (hooks = true ->
   is_amax_initialized self && negb (amax_and_scale_synced self)
     && is_grad_enabled env = false)
  /\ scaling_type_input self = Config.DYNAMIC
  /\ is_Float8Tensor (weight self) = true
  /\ (exists w_fp8_t y o,
        tensor_t (weight self) = Ok w_fp8_t
        /\ torch_matmul x_fp8 w_fp8_t = Ok y
        /\ cast_y_to_float8_in_bw y self0 = (self0, Ok o)
        /\ y1 = match bias self with
                | Some b =>
                    mkOutput
                      (torch_add (value o)
                         (tensor_to b (tensor_dtype (value o))))
                      (grad_fn o)
                | None => o
                end)
  /\ self1 =
     if hooks
     then set_amax_and_scale_synced false (set_is_amax_initialized true self0)
     else self0.
Proof.
  intros Hfw hooks self0 x_fp8.
  unfold forward in Hfw.
  apply bind_ok_inv in Hfw as (s & a & [= <- <-] & Hfw).
  apply bind_ok_inv in Hfw as (s & [] & Hpre & Hfw).
  assert (s = self0
          /\ (hooks = true ->
              is_amax_initialized self && negb (amax_and_scale_synced self)
                && is_grad_enabled env = false)) as [-> Hcond].
  { subst self0 hooks.
    destruct (has_any_delayed_scaling self); cbn [andb].
    - destruct (enable_pre_and_post_forward self) eqn:Hen.
      + destruct (is_amax_initialized self
                  && negb (amax_and_scale_synced self)
                  && is_grad_enabled env) eqn:Hc.
        * by rewrite float8_pre_forward_not_synced in Hpre.
        * rewrite float8_pre_forward_pass in Hpre by done.
          by injection Hpre as <-.
      + rewrite float8_pre_forward_disabled in Hpre by done.
        by injection Hpre as <-.
    - by injection Hpre as <-. }
  assert (scaling_type_input self0 = scaling_type_input self
          /\ weight self0 = weight self
          /\ bias self0 = bias self
          /\ linear_mm_config self0 = linear_mm_config self
          /\ has_any_delayed_scaling self0 = has_any_delayed_scaling self
          /\ enable_pre_and_post_forward self0
             = enable_pre_and_post_forward self)
    as (Hf1 & Hf2 & Hf3 & Hf4 & Hf5 & Hf6).
  { subst self0. by destruct hooks. }
  apply bind_ok_inv in Hfw as (s & a & [= <- <-] & Hfw).
  apply bind_ok_inv in Hfw as (s & xr & Hx & Hfw).
  destruct (scaling_type_input self) eqn:Hsx; last first.
  { pose proof (cast_x_to_float8_delayed env x
                  (is_amax_initialized self0) self0 Hf1) as Hno.
    by rewrite Hx in Hno. }
  rewrite (cast_x_to_float8_dynamic env x _ self0 Hf1) in Hx.
  injection Hx as <- <-.
  apply bind_ok_inv in Hfw as (s & a & [= <- <-] & Hfw).
  apply bind_ok_inv in Hfw as (s & wr & Hw & Hfw).
  destruct (is_Float8Tensor (weight self)) eqn:Hwf; last first.
  { rewrite <- Hf2 in Hwf.
    pose proof (cast_w_to_float8_not_precast (weight self0)
                  (is_amax_initialized self0) self0 Hwf) as Hno.
    by rewrite Hw in Hno. }
  destruct (weight self) as [| f | |] eqn:Hweight; try discriminate.
  assert (cast_w_to_float8 (weight self0) (is_amax_initialized self0) self0
          = (self0, Ok (Float8 f))) as Hcw.
  { unfold cast_w_to_float8, bind, get. rewrite Hf2.
    by destruct (scaling_type_weight self0). }
  rewrite Hcw in Hw. injection Hw as <- <-.
  apply bind_ok_inv in Hfw as (s & wt & Hwt & Hfw).
  unfold lift_result in Hwt. injection Hwt as <- Hwt.
  apply bind_ok_inv in Hfw as (s & y & Hy & Hfw).
  unfold lift_result in Hy. injection Hy as <- Hy.
  apply bind_ok_inv in Hfw as (s & o & Hcy & Hfw).
  pose proof (cast_y_to_float8_in_bw_state y self0) as Hst.
  rewrite Hcy in Hst. cbn in Hst. subst s.
  apply bind_ok_inv in Hfw as (s & a & [= <- <-] & Hfw).
  apply bind_ok_inv in Hfw as (s & [] & Hpost & Hfw).
  injection Hfw as <- <-.
  split_and!; try done.
  - exists wt, y, o. rewrite Hf4 in Hy. by rewrite Hf3.
  - rewrite Hf5 in Hpost. subst hooks.
    destruct (has_any_delayed_scaling self); cbn [andb] in *.
    + destruct (enable_pre_and_post_forward self) eqn:Hen.
      * rewrite float8_post_forward_enabled in Hpost by done.
        by injection Hpost as <-.
      * rewrite float8_post_forward_disabled in Hpost by (by rewrite Hf6).
        by injection Hpost as <-.
    + by injection Hpost as <-.
Qed.

(** The converse of [forward_ok_inv_gen]. *)
Lemma forward_ok_intro_gen env x (self : Float8Linear.t) w_fp8_t y :
  let hooks :=
    has_any_delayed_scaling self && enable_pre_and_post_forward self in
  let self0 :=
    if hooks then set_last_seen_input_dtype (Some (tensor_dtype x)) self
    else self in
  let x_fp8 :=
    cast_to_float8_e4m3_dynamic
      (if is_autocast_enabled env
       then tensor_to x (get_autocast_gpu_dtype env) else x)
      (linear_mm_config self) Omitted in
  (hooks = true ->
   is_amax_initialized self && negb (amax_and_scale_synced self)
     && is_grad_enabled env = false) ->
  scaling_type_input self = Config.DYNAMIC ->
  is_Float8Tensor (weight self) = true ->
  tensor_t (weight self) = Ok w_fp8_t ->
  torch_matmul x_fp8 w_fp8_t = Ok y ->
  is_ok (cast_y_to_float8_in_bw y self0).2 = true ->
  exists y1,
    forward env x self =
    ((if hooks
      then set_amax_and_scale_synced false
             (set_is_amax_initialized true self0)
      else self0),
     Ok y1).
Proof.
  intros hooks self0 x_fp8 Hcond Hsx Hwf Hwt Hy Hcy.
  assert (scaling_type_input self0 = scaling_type_input self
          /\ weight self0 = weight self
          /\ linear_mm_config self0 = linear_mm_config self
          /\ has_any_delayed_scaling self0 = has_any_delayed_scaling self
          /\ enable_pre_and_post_forward self0
             = enable_pre_and_post_forward self)
    as (Hf1 & Hf2 & Hf4 & Hf5 & Hf6).
  { subst self0. by destruct hooks. }
  destruct (weight self) as [| f | |] eqn:Hweight; try discriminate.
  destruct (cast_y_to_float8_in_bw y self0) as [s [o|e]] eqn:Hcast;
    [|discriminate].
  pose proof (cast_y_to_float8_in_bw_state y self0) as Hst.
  rewrite Hcast in Hst. cbn in Hst. subst s.
  eexists. unfold forward.
  rewrite (bind_ok _ _ self self self) by done.
  rewrite (bind_ok _ _ self self0 tt).
  2:{ subst self0 hooks.
      destruct (has_any_delayed_scaling self); cbn [andb] in *; [|done].
      destruct (enable_pre_and_post_forward self) eqn:Hen.
      - by apply float8_pre_forward_pass; [|apply Hcond].
      - by apply float8_pre_forward_disabled. }
  rewrite (bind_ok _ _ self0 self0 self0) by done.
  erewrite bind_ok
    by (apply cast_x_to_float8_dynamic; by rewrite Hf1).
  rewrite (bind_ok _ _ self0 self0 self0) by done.
  rewrite (bind_ok _ _ self0 self0 (Float8 f)).
  2:{ unfold cast_w_to_float8, bind, get. rewrite Hf2.
      by destruct (scaling_type_weight self0). }
  erewrite bind_ok by (unfold lift_result; by rewrite Hwt).
  erewrite bind_ok
    by (unfold lift_result; f_equal; rewrite Hf4; exact Hy).
  erewrite bind_ok by exact Hcast.
  rewrite (bind_ok _ _ self0 self0 self0) by done.
  rewrite Hf5.
  rewrite (bind_ok _ _ self0
             (if hooks
              then set_amax_and_scale_synced false
                     (set_is_amax_initialized true self0)
              else self0) tt); [done|].
  subst hooks.
  destruct (has_any_delayed_scaling self); cbn [andb] in *; [|done].
  destruct (enable_pre_and_post_forward self) eqn:Hen.
  - by apply float8_post_forward_enabled.
  - by apply float8_post_forward_disabled.
Qed.

(** A forward pass returns normally only on a layer whose input is scaled
    dynamically and whose weight is already a [Float8Tensor]: every other
    cast path reaches a name that float8_tensor.py does not have
    ([Float8Tensor.to_float8] and [GemmInputRole.X] or [GemmInputRole.W] on
    the delayed paths, [GemmInputRole.W] on the dynamic weight path) and
    raises before the product is taken. *)
Theorem forward_ok_requirements env x (self self1 : Float8Linear.t) y1 :
  forward env x self = (self1, Ok y1) ->
  scaling_type_input self = Config.DYNAMIC
  /\ is_Float8Tensor (weight self) = true.
Proof.
  intros Hfw.
  by destruct (forward_ok_inv_gen env x self self1 y1 Hfw)
    as (_ & Hsx & Hwf & _).
Qed.

(** A forward pass that returns normally writes no buffer.  When the layer
    has delayed scaling on some role and the hooks are enabled it sets
    [last_seen_input_dtype] to the dtype of the input, [is_amax_initialized]
    to true and [amax_and_scale_synced] to false; otherwise it leaves the
    layer as it was. *)
Theorem forward_state_effect env x (self self1 : Float8Linear.t) y1 :
  forward env x self = (self1, Ok y1) ->
  self1 =
  (if has_any_delayed_scaling self && enable_pre_and_post_forward self
   then set_amax_and_scale_synced false
          (set_is_amax_initialized true
             (set_last_seen_input_dtype (Some (tensor_dtype x)) self))
   else self)
  /\ _buffers self1 = _buffers self.
Proof.
  intros Hfw.
  destruct (forward_ok_inv_gen env x self self1 y1 Hfw)
    as (_ & _ & _ & _ & ->).
  by destruct (has_any_delayed_scaling self
               && enable_pre_and_post_forward self).
Qed.

(** The backward node that a forward pass puts on its output under delayed
    scaling of grad_output refers to the three grad_output buffers and
    holds the value that [is_amax_initialized] had before the call, not the
    value the post hook sets; under dynamic scaling there is no such
    node. *)
Theorem forward_grad_fn env x (self self1 : Float8Linear.t) y1 :
  forward env x self = (self1, Ok y1) ->
  (scaling_type_grad_output self = Config.DELAYED ->
   grad_fn y1 =
   Some (NoopFwToFloat8E5M2Bw.mkCtx
           ("fp8_amax_grad_output", "fp8_amax_history_grad_output",
            "fp8_scale_grad_output")
           (Config.scale_fn_name
              (Config.delayed_scaling_config (config self)))
           (is_amax_initialized self) (linear_mm_config self)))
  /\ (scaling_type_grad_output self = Config.DYNAMIC -> grad_fn y1 = None).
Proof.
  intros Hfw.
  destruct (forward_ok_inv_gen env x self self1 y1 Hfw)
    as (_ & _ & _ & (wt & y & o & _ & _ & Hcy & ->) & _).
  match type of Hcy with
  | cast_y_to_float8_in_bw _ ?s = _ => set (self0 := s) in *
  end.
  assert (scaling_type_grad_output self0 = scaling_type_grad_output self
          /\ config self0 = config self
          /\ is_amax_initialized self0 = is_amax_initialized self
          /\ linear_mm_config self0 = linear_mm_config self)
    as (Hf1 & Hf2 & Hf3 & Hf4).
  { subst self0.
    by destruct (has_any_delayed_scaling self
                 && enable_pre_and_post_forward self). }
  split; intros Hs.
  - rewrite <- Hf1 in Hs.
    pose proof (cast_y_to_float8_in_bw_delayed y self0 o Hs) as Ho.
    rewrite Hcy in Ho. specialize (Ho eq_refl). subst o.
    rewrite Hf2, Hf3, Hf4. by destruct (bias self).
  - rewrite <- Hf1 in Hs.
    rewrite (cast_y_to_float8_in_bw_dynamic y self0 Hs) in Hcy.
    injection Hcy as <-. by destruct (bias self).
Qed.

(** Without gradient tracking the check of the pre hook never fires: after
    a forward pass that returned normally, the same forward pass returns
    normally again with no synchronization in between, and leaves the layer
    as the first pass left it. *)
Theorem forward_no_grad_repeats env x (self self1 : Float8Linear.t) y1 :
  is_grad_enabled env = false ->
  forward env x self = (self1, Ok y1) ->
  exists y2, forward env x self1 = (self1, Ok y2).
Proof.
  intros Hgrad Hfw.
  destruct (forward_ok_inv_gen env x self self1 y1 Hfw)
    as (_ & Hsx & Hwf & (wt & y & o & Hwt & Hy & Hcy & _) & ->).
  match goal with |- context [forward env x ?s] => set (s1 := s) end.
  assert (has_any_delayed_scaling s1 = has_any_delayed_scaling self
          /\ enable_pre_and_post_forward s1 = enable_pre_and_post_forward self
          /\ scaling_type_input s1 = scaling_type_input self
          /\ weight s1 = weight self
          /\ linear_mm_config s1 = linear_mm_config self
          /\ scaling_type_grad_output s1 = scaling_type_grad_output self
          /\ _buffers s1 = _buffers self)
    as (Hf1 & Hf2 & Hf3 & Hf4 & Hf5 & Hf6 & Hf7).
  { subst s1.
    by destruct (has_any_delayed_scaling self
                 && enable_pre_and_post_forward self). }
  destruct (forward_ok_intro_gen env x s1 wt y) as [y2 Hfw2].
  - intros _. by rewrite Hgrad, andb_false_r.
  - by rewrite Hf3.
  - by rewrite Hf4.
  - by rewrite Hf4.
  - by rewrite Hf5.
  - eapply cast_y_to_float8_in_bw_ok; [| |by rewrite Hcy].
    + rewrite Hf1, Hf2.
      destruct (has_any_delayed_scaling self
                && enable_pre_and_post_forward self); exact Hf6.
    + rewrite Hf1, Hf2.
      destruct (has_any_delayed_scaling self
                && enable_pre_and_post_forward self); exact Hf7.
  - exists y2. rewrite Hfw2. f_equal.
    rewrite Hf1, Hf2. subst s1.
    destruct (has_any_delayed_scaling self
              && enable_pre_and_post_forward self); [|done].
    by destruct self.
Qed.

(** [from_float] builds the layer that [__init__] builds from the weight
    and the bias of the given module: the placeholder weight made on the
    meta device and the buffers of the first [create_buffers] leave no
    trace.  With [enable_fsdp_float8_all_gather] the weight is the wrapper
    for the scaling type of the weight, around the weight of the module;
    [from_float] never raises. *)
Theorem from_float_is_init (mod_ : nn.Linear)
    (cfg : Config.Float8LinearConfig) (meta_weight : tensor) :
  let base := init (nn.weight mod_) (nn.bias mod_) cfg in
  (Config.enable_fsdp_float8_all_gather cfg = false ->
   from_float mod_ (Some cfg) meta_weight = Ok base)
  /\ (Config.enable_fsdp_float8_all_gather cfg = true ->
      Config.scaling_type (Config.cast_config_weight cfg) = Config.DYNAMIC ->
      from_float mod_ (Some cfg) meta_weight =
      Ok (set_weight
            (WeightWithDynamicFloat8CastTensor (nn.weight mod_)
               (linear_mm_config base)) base))
  /\ (Config.enable_fsdp_float8_all_gather cfg = true ->
      Config.scaling_type (Config.cast_config_weight cfg) = Config.DELAYED ->
      from_float mod_ (Some cfg) meta_weight =
      Ok (set_weight
            (WeightWithDelayedFloat8CastTensor (nn.weight mod_)
               "fp8_amax_weight" "fp8_amax_history_weight" "fp8_scale_weight"
               (linear_mm_config base) (is_amax_initialized base)) base)).
Proof.
  intros base.
  assert (forall k : M Float8Linear.t unit,
            bind (modify (set_weight (nn.weight mod_))) (fun _ =>
            bind (modify (set_bias (nn.bias mod_))) (fun _ =>
            bind create_buffers (fun _ => k)))
              (init meta_weight None cfg) = k base) as Hprefix.
  { intros k.
    set (i0 := init meta_weight None cfg).
    set (s2 := set_bias (nn.bias mod_) (set_weight (nn.weight mod_) i0)).
    rewrite (bind_ok _ _ i0 (set_weight (nn.weight mod_) i0) tt) by done.
    rewrite (bind_ok _ _ _ s2 tt) by done.
    assert ((create_buffers s2).1 = base) as Hbase.
    { subst s2. rewrite create_buffers_set_bias. cbn [fst].
      rewrite create_buffers_set_weight. cbn [fst].
      assert ((create_buffers i0).1 = i0) as ->.
      { subst i0. unfold init. by rewrite create_buffers_idempotent. }
      subst i0 base. unfold init.
      match goal with
      | |- set_bias _ (set_weight _ (create_buffers ?s).1) = _ =>
          set (s0 := s)
      end.
      pose proof (create_buffers_set_bias (nn.bias mod_)
                    (set_weight (nn.weight mod_) s0)) as Hb.
      rewrite create_buffers_set_weight in Hb. cbn [fst snd] in Hb.
      apply (f_equal fst) in Hb. cbn [fst] in Hb. by rewrite <- Hb. }
    rewrite (bind_ok _ _ s2 base tt); [done|].
    rewrite <- Hbase, <- (create_buffers_ok s2).
    by destruct (create_buffers s2). }
  assert (weight base = nn.weight mod_) as Hweight.
  { subst base. unfold init, create_buffers, bind, get. cbn.
    by destruct (_ || _). }
  unfold from_float. split_and!.
  - intros Hfsdp. rewrite Hfsdp, Hprefix. reflexivity.
  - intros Hfsdp Hw. rewrite Hfsdp, Hw.
    rewrite bool_decide_eq_true_2 by done. rewrite Hprefix.
    unfold bind, get, modify. by rewrite Hweight.
  - intros Hfsdp Hw. rewrite Hfsdp, Hw.
    rewrite bool_decide_eq_false_2, bool_decide_eq_true_2 by done.
    rewrite Hprefix.
    assert (has_any_delayed_scaling base = true) as Hany.
    { subst base. apply init_has_any_delayed_scaling. auto. }
    assert (_buffers base = _buffers (create_buffers base).1) as Hbufs.
    { subst base. unfold init. by rewrite create_buffers_idempotent. }
    destruct (create_buffers_delayed base Hany) as [Hb _].
    assert (is_Some (_buffers base !! "fp8_amax_weight")
            /\ is_Some (_buffers base !! "fp8_amax_history_weight")
            /\ is_Some (_buffers base !! "fp8_scale_weight"))
      as ([? H1] & [? H2] & [? H3]).
    { rewrite Hbufs, Hb. split_and!; eexists; by simplify_map_eq. }
    unfold bind, get, getattr_buffer, modify.
    by rewrite H1, H2, H3, Hweight.
Qed.

End ForwardFurther.

(** * The further statements on concrete inputs *)

Lemma tensor_unflatten_flatten_witness :
  tensor_unflatten (T := Toy.torch)
    (<["_data" := Dense float8_e4m3fn [2] [1] [448; -448]%Z]>
       (<["_scale" := Dense float32 [] [] [448%Z]]> ∅))
    (mkFloat8Metadata float32 (Some LinearMMConfig_default) (Some INPUT)) =
  Ok (Toy.tagged LinearMMConfig_default INPUT).
Proof.
  exact (proj2 (tensor_unflatten_flatten (T := Toy.torch)
                  (Toy.tagged LinearMMConfig_default INPUT) eq_refl)).
Defined.

Lemma tensor_unflatten_errors_witness :
  tensor_unflatten (T := Toy.torch) ∅
    (mkFloat8Metadata float32 None None) = Raise (AssertionError "")
  /\ tensor_unflatten (T := Toy.torch)
       (<["_data" := Toy.vec [1%Z]]> (<["_amax" := Toy.vec [1%Z]]> ∅))
       (mkFloat8Metadata float32 None None) = Raise (KeyError "_scale").
Proof.
  split.
  - apply (proj1 (tensor_unflatten_errors (T := Toy.torch) ∅
                    (mkFloat8Metadata float32 None None))).
    vm_compute. lia.
  - apply (proj1 (proj2 (proj2 (tensor_unflatten_errors (T := Toy.torch)
             (<["_data" := Toy.vec [1%Z]]> (<["_amax" := Toy.vec [1%Z]]> ∅))
             (mkFloat8Metadata float32 None None))))).
    + reflexivity.
    + eexists. reflexivity.
    + reflexivity.
Defined.

Lemma cast_result_already_casted_witness :
  tensor_already_casted_to_fp8
    (Float8
       (mkFloat8Tensor (Dense float8_e4m3fn [3] [1] [2; -6; 448]%Z)
          (Dense float32 [] [] [2%Z]) float32 LinearMMConfig_default
          (Some INPUT))) = true.
Proof.
  apply (cast_result_already_casted (T := Toy.torch) (Toy.vec [1; -3; 500]%Z)
           (Dense float32 [] [] [2%Z]) Omitted Omitted Omitted).
  reflexivity.
Defined.

Lemma cast_result_dtype_and_size_witness :
  tensor_dtype
    (Float8
       (mkFloat8Tensor (Dense float8_e4m3fn [3] [1] [2; -6; 448]%Z)
          (Dense float32 [] [] [2%Z]) float32 LinearMMConfig_default
          (Some INPUT))) = float32
  /\ tensor_size
       (Float8
          (mkFloat8Tensor (Dense float8_e4m3fn [3] [1] [2; -6; 448]%Z)
             (Dense float32 [] [] [2%Z]) float32 LinearMMConfig_default
             (Some INPUT))) = [3].
Proof.
  destruct (cast_result_dtype_and_size (T := Toy.torch)
              (Toy.vec [1; -3; 500]%Z) (Dense float32 [] [] [2%Z])
              Omitted Omitted Omitted _ eq_refl) as (Hd & Hs & _).
  split; [exact Hd|exact Hs].
Defined.

Lemma choose_scaled_mm_config_swapped_witness :
  choose_scaled_mm_config (Some WEIGHT) LinearMMConfig_default
    (Some INPUT) LinearMMConfig_default =
  Raise (AssertionError
    "unexpected a_role GemmInputRole.WEIGHT and b_role GemmInputRole.INPUT").
Proof.
  apply (choose_scaled_mm_config_swapped (Some INPUT) LinearMMConfig_default
           (Some WEIGHT) LinearMMConfig_default
           (mkScaledMMConfig false true false false)).
  reflexivity.
Defined.

Lemma cast_pair_resolves_witness :
  choose_scaled_mm_config (Some GRAD_OUTPUT) Toy.slow_accum
    (Some WEIGHT) Toy.slow_accum = Ok ScaledMMConfig_default.
Proof.
  apply (cast_pair_resolves (T := Toy.torch)
           (Toy.vec [1; -3]%Z) (Dense float32 [] [] [2%Z]) (Passed float8_e5m2)
           (Toy.vec [5; 7]%Z) (Dense float32 [] [] [3%Z]) Omitted
           (Some Toy.slow_accum) GRAD_OUTPUT WEIGHT grad_input
           _ _
           (mkFloat8Tensor (Dense float8_e5m2 [2] [1] [2; -6]%Z)
              (Dense float32 [] [] [2%Z]) float32 Toy.slow_accum
              (Some GRAD_OUTPUT))
           (mkFloat8Tensor (Dense float8_e4m3fn [2] [1] [15; 21]%Z)
              (Dense float32 [] [] [3%Z]) float32 Toy.slow_accum
              (Some WEIGHT))
           gemm_grad_input eq_refl eq_refl eq_refl eq_refl).
Defined.

Lemma maybe_initialize_writes_witness :
  (_maybe_initialize_amaxes_scales_for_float8_cast (T := Toy.torch)
     (Toy.vec [3; -7]%Z) "fp8_amax_grad_output"
     "fp8_amax_history_grad_output" "fp8_scale_grad_output" "max"
     float8_e5m2 false true
     (Float8Linear._buffers (Toy.layer true true))).1
    !! "fp8_amax_history_grad_output"
  = Some (Dense float32 [2] [1] [7; 0]%Z)
  /\ (_maybe_initialize_amaxes_scales_for_float8_cast (T := Toy.torch)
        (Toy.vec [3; -7]%Z) "fp8_amax_grad_output"
        "fp8_amax_history_grad_output" "fp8_scale_grad_output" "max"
        float8_e5m2 false true
        (Float8Linear._buffers (Toy.layer true true))).1
       !! "fp8_scale_grad_output"
     = Some (Dense float32 [1] [1] [8192%Z]).
Proof.
  destruct (maybe_initialize_writes (T := Toy.torch) (Toy.vec [3; -7]%Z)
              "fp8_amax_grad_output" "fp8_amax_history_grad_output"
              "fp8_scale_grad_output" "max" float8_e5m2 true
              (Float8Linear._buffers (Toy.layer true true))
              (Dense float32 [1] [1] [57344%Z])
              (Dense float32 [1] [1] [1%Z]) float32 1 [1] 0%Z [0%Z]
              8192%Z)
    as (_ & _ & Hh & Hs & _);
    [discriminate|discriminate|discriminate
    |reflexivity|reflexivity|reflexivity|reflexivity|].
  split; [exact Hh|exact Hs].
Defined.

Lemma maybe_initialize_empty_history_witness :
  exists msg,
    _maybe_initialize_amaxes_scales_for_float8_cast (T := Toy.torch)
      (Toy.vec [3; -7]%Z) "fp8_amax_input" "fp8_amax_history_input"
      "fp8_scale_input" "max" float8_e4m3fn false true
      (Float8Linear._buffers
         (Float8Linear.init (T := Toy.torch) Toy.fp8_weight None
            (Toy.cfg_delayed 0 false))) =
    (<["fp8_amax_input" := Dense float32 [1] [1] [7%Z]]>
       (Float8Linear._buffers
          (Float8Linear.init (T := Toy.torch) Toy.fp8_weight None
             (Toy.cfg_delayed 0 false))),
     Raise (IndexError msg)).
Proof.
  apply (maybe_initialize_empty_history (T := Toy.torch) (Toy.vec [3; -7]%Z)
           "fp8_amax_input" "fp8_amax_history_input" "fp8_scale_input" "max"
           float8_e4m3fn true _ (Dense float32 [1] [1] [448%Z])
           float32 [] [1] []);
    [discriminate|reflexivity|reflexivity].
Defined.

Lemma maybe_initialize_scale_error_witness :
  (_maybe_initialize_amaxes_scales_for_float8_cast (T := Toy.torch)
     (Toy.vec [3; -7]%Z) "fp8_amax_input" "fp8_amax_history_input"
     "fp8_scale_input" "median" float8_e4m3fn false true
     (Float8Linear._buffers (Toy.layer true true))).2
  = Raise (NotImplementedError "median").
Proof.
  apply (maybe_initialize_scale_error (T := Toy.torch) (Toy.vec [3; -7]%Z)
           "fp8_amax_input" "fp8_amax_history_input" "fp8_scale_input"
           "median" float8_e4m3fn true
           (Float8Linear._buffers (Toy.layer true true))
           (Dense float32 [1] [1] [448%Z]) (Dense float32 [2] [1] [0; 0]%Z)
           (Dense float32 [2] [1] [7; 0]%Z) (NotImplementedError "median"));
    [discriminate|discriminate|discriminate
    |reflexivity|reflexivity|reflexivity|reflexivity].
Defined.

Lemma create_buffers_resets_witness :
  Float8Linear._buffers
    (Float8Linear.create_buffers (Toy.layer true true)).1
    !! "fp8_amax_history_weight" = Some (Dense float32 [2] [1] [0; 0]%Z)
  /\ Float8Linear.create_buffers
       (Float8Linear.create_buffers (Toy.layer true true)).1 =
     ((Float8Linear.create_buffers (Toy.layer true true)).1, Ok tt).
Proof.
  destruct (create_buffers_resets (T := Toy.torch) (Toy.layer true true)
              eq_refl) as (_ & Hdef & _ & _ & Hidem).
  split; [|exact Hidem].
  apply Hdef. do 4 apply list_elem_of_further. apply list_elem_of_here.
Defined.

Lemma init_buffer_names_witness :
  Float8Linear._buffers
    (Float8Linear.init (T := Toy.torch) Toy.fp8_weight None
       (Float8LinearConfig_default (Float8LinearImports := Toy.imports)))
  = ∅.
Proof.
  apply (proj1 (proj2 (init_buffer_names (T := Toy.torch) Toy.fp8_weight None
                         (Float8LinearConfig_default
                            (Float8LinearImports := Toy.imports))))).
  reflexivity.
Defined.

Lemma convert_amax_buffer_to_float32_spec_witness :
  exists bufs',
    Float8Linear.convert_amax_buffer_to_float32 (Toy.layer true true) =
    (Float8Linear.set_buffers bufs' (Toy.layer true true), Ok tt)
    /\ bufs' !! "fp8_scale_input" = Some (Dense float32 [1] [1] [1%Z]).
Proof.
  destruct (convert_amax_buffer_to_float32_spec (T := Toy.torch)
              (Toy.layer true true)) as (bufs' & Hconv & Hlook & _).
  - apply (bool_decide_unpack _). vm_compute. reflexivity.
  - exists bufs'. split; [exact Hconv|].
    rewrite Hlook. vm_compute. reflexivity.
Defined.

Lemma forward_ok_requirements_witness :
  Float8Linear.scaling_type_input (Toy.layer true true) = Config.DYNAMIC
  /\ is_Float8Tensor (Float8Linear.weight (Toy.layer true true)) = true.
Proof.
  destruct (forward_ok_intro (C := Toy.casts) Toy.env (Toy.vec [1; 2]%Z)
              (Toy.layer true true) Toy.fp8_weight
              (Dense float32 [1] [1] [448%Z]))
    as [y1 Hfw]; try reflexivity.
  exact (forward_ok_requirements (C := Toy.casts) Toy.env (Toy.vec [1; 2]%Z)
           (Toy.layer true true) _ y1 Hfw).
Defined.

Lemma forward_state_effect_witness :
  Float8Linear._buffers
    (Float8Linear.forward (C := Toy.casts) Toy.env (Toy.vec [1; 2]%Z)
       (Toy.layer true true)).1
  = Float8Linear._buffers (Toy.layer true true)
  /\ Float8Linear.last_seen_input_dtype
       (Float8Linear.forward (C := Toy.casts) Toy.env (Toy.vec [1; 2]%Z)
          (Toy.layer true true)).1 = Some float32.
Proof.
  destruct (forward_ok_intro (C := Toy.casts) Toy.env (Toy.vec [1; 2]%Z)
              (Toy.layer true true) Toy.fp8_weight
              (Dense float32 [1] [1] [448%Z]))
    as [y1 Hfw]; try reflexivity.
  destruct (forward_state_effect (C := Toy.casts) Toy.env (Toy.vec [1; 2]%Z)
              (Toy.layer true true) _ y1 Hfw) as [Hst Hbufs].
  rewrite Hfw. cbn [fst]. split; [exact Hbufs|reflexivity].
Defined.

Lemma forward_grad_fn_witness :
  exists y1 c,
    (Float8Linear.forward (C := Toy.casts) Toy.env (Toy.vec [1; 2]%Z)
       (Toy.layer true true)).2 = Ok y1
    /\ Float8Linear.grad_fn y1 = Some c
    /\ NoopFwToFloat8E5M2Bw.is_amax_initialized c = false
    /\ Float8Linear.is_amax_initialized
         (Float8Linear.forward (C := Toy.casts) Toy.env (Toy.vec [1; 2]%Z)
            (Toy.layer true true)).1 = true.
Proof.
  destruct (forward_ok_intro (C := Toy.casts) Toy.env (Toy.vec [1; 2]%Z)
              (Toy.layer true true) Toy.fp8_weight
              (Dense float32 [1] [1] [448%Z]))
    as [y1 Hfw]; try reflexivity.
  destruct (forward_grad_fn (C := Toy.casts) Toy.env (Toy.vec [1; 2]%Z)
              (Toy.layer true true) _ y1 Hfw) as [Hdel _].
  exists y1. eexists. rewrite Hfw. cbn [fst snd].
  split_and!; [reflexivity|exact (Hdel eq_refl)|reflexivity|reflexivity].
Defined.

Lemma forward_no_grad_repeats_witness :
  exists y2,
    Float8Linear.forward (C := Toy.casts)
      (mkTorchGlobals false false bfloat16) (Toy.vec [1; 2]%Z)
      (Float8Linear.forward (C := Toy.casts)
         (mkTorchGlobals false false bfloat16) (Toy.vec [1; 2]%Z)
         (Toy.layer false true)).1 =
    ((Float8Linear.forward (C := Toy.casts)
        (mkTorchGlobals false false bfloat16) (Toy.vec [1; 2]%Z)
        (Toy.layer false true)).1, Ok y2).
Proof.
  destruct (forward_ok_intro (C := Toy.casts)
              (mkTorchGlobals false false bfloat16) (Toy.vec [1; 2]%Z)
              (Toy.layer false true) Toy.fp8_weight
              (Dense float32 [1] [1] [448%Z]))
    as [y1 Hfw]; try reflexivity.
  rewrite Hfw. cbn [fst].
  exact (forward_no_grad_repeats (C := Toy.casts)
           (mkTorchGlobals false false bfloat16) (Toy.vec [1; 2]%Z)
           (Toy.layer false true) _ y1 eq_refl Hfw).
Defined.

Lemma from_float_is_init_witness :
  Float8Linear.from_float (I := Toy.imports) Toy.linear
    (Some (Toy.cfg_delayed 2 false)) (Dense float32 [2; 2] [2; 1] [])
  = Ok (Float8Linear.init (T := Toy.torch)
          (Dense float32 [2; 2] [2; 1] [1; 0; 0; 1]%Z) None
          (Toy.cfg_delayed 2 false)).
Proof.
  apply (proj1 (from_float_is_init (I := Toy.imports) Toy.linear
                  (Toy.cfg_delayed 2 false) (Dense float32 [2; 2] [2; 1] []))).
  reflexivity.
Defined.
